(** * inquiry-split: header detection, value harvesting and record decomposition

    A shallow embedding of the classification engine of the repository's
    scripts:
    - [extact2-提取历史已拆分.py]  (harvesting into the knowledge base),
    - [extact2-自动拆分.py]        (decomposition of free-text cells),
    - [extract1-可用.py]           (the first header locator).

    Python [str] values are lists of Unicode code points, so that [len],
    [in], [split] and the CJK range test read as in the scripts. *)

From Stdlib Require Import ZArith NArith List Ascii String DecimalString Lia Bool.
From Stdlib Require DecimalNat DecimalFacts.
From Stdlib Require Import QArith Qround Lqa.
From stdpp Require Import gmap list sorting.

Local Open Scope nat_scope.

(* ===================================================================== *)
(** * Python strings *)
(* ===================================================================== *)

Module PyStr.

(** A [str] is the sequence of its code points. *)
Abbreviation str := (list N).

(** An ASCII literal as a [str]. *)
Definition lit (s : string) : str :=
  List.map N_of_ascii (list_ascii_of_string s).

(** [a == b] *)
Definition str_eqb (a b : str) : bool := bool_decide (a = b).

(** [s.startswith(p)] *)
Fixpoint starts_with (p s : str) : bool :=
  match p, s with
  | [], _ => true
  | _ :: _, [] => false
  | a :: p', b :: s' => (a =? b)%N && starts_with p' s'
  end.

(** [needle in hay] *)
Fixpoint py_in (needle hay : str) : bool :=
  starts_with needle hay ||
  match hay with
  | [] => false
  | _ :: rest => py_in needle rest
  end.

(** [s.split(sep)] for a one-character separator: the pieces between the
    occurrences of [sep], empty pieces kept. *)
Fixpoint py_split (sep : N) (s : str) : list str :=
  match s with
  | [] => [[]]
  | c :: rest =>
      if (c =? sep)%N then [] :: py_split sep rest
      else match py_split sep rest with
           | [] => [[c]]
           | piece :: pieces => (c :: piece) :: pieces
           end
  end.

(** Occurrences of a character. *)
Definition occurrences (c : N) (s : str) : nat :=
  length (List.filter (fun x => (x =? c)%N) s).

(** [c.isspace()]: the code points Python's [strip] removes. *)
Definition is_space (c : N) : bool :=
  ((9 <=? c) && (c <=? 13) || (28 <=? c) && (c <=? 32)
   || (c =? 0x85) || (c =? 0xA0) || (c =? 0x1680)
   || (0x2000 <=? c) && (c <=? 0x200A)
   || (c =? 0x2028) || (c =? 0x2029) || (c =? 0x202F)
   || (c =? 0x205F) || (c =? 0x3000))%N.

Fixpoint lstrip (s : str) : str :=
  match s with
  | [] => []
  | c :: rest => if is_space c then lstrip rest else s
  end.

(** [s.strip()] *)
Definition strip (s : str) : str := rev (lstrip (rev (lstrip s))).

(** [s.replace("\n", " ")] *)
Definition newlines_to_spaces (s : str) : str :=
  List.map (fun c => if (c =? 10)%N then 32%N else c) s.

(** [str(n)] for a natural number. *)
Definition of_nat (n : nat) : str :=
  lit (DecimalString.NilZero.string_of_uint (Nat.to_uint n)).

Definition comma : N := 44.
Definition semicolon : N := 59.
Definition dot : N := 46.
Definition dash : N := 45.

End PyStr.
Import PyStr.

(* ===================================================================== *)
(** * Tables and header detection *)
(* ===================================================================== *)

Module Frame.

(** A cell of a sheet read with [header=None].  A numeric cell carries
    the text [str()] gives for it. *)
Inductive cell :=
| Missing
| Text (s : str)
| Number (repr : str).

Definition row := list cell.
(** A DataFrame: its rows, all of the same width. *)
Definition table := list row.

(** [pd.isna(c)] *)
Definition isna (c : cell) : bool :=
  match c with Missing => true | _ => false end.

(** [isinstance(c, str)] *)
Definition is_str (c : cell) : bool :=
  match c with Text _ => true | _ => false end.

(** [str(c)] *)
Definition cell_str (c : cell) : str :=
  match c with
  | Missing => lit "nan"
  | Text s => s
  | Number r => r
  end.

(** [series.dropna()] *)
Definition dropna (r : row) : row := List.filter (fun c => negb (isna c)) r.

(** [df.iloc[i]] *)
Definition iloc (df : table) (i : nat) : row := nth i df [].

(** [df.shape[1]] *)
Definition width (df : table) : nat :=
  match df with [] => 0 | r :: _ => length r end.

(** [df.empty] *)
Definition empty (df : table) : bool :=
  (length df =? 0) || (width df =? 0).

(** [df.iloc[:, j]] *)
Definition column (df : table) (j : nat) : list cell :=
  List.map (fun r => nth j r Missing) df.

(** ** extact2-*.py, [is_header_row] (the two scripts agree).
    [string_cells / len(non_empty_cells) > 0.5] is the integer comparison
    [len(non_empty_cells) < 2 * string_cells]. *)
Definition is_header_row (df_slice : table) (row_index : nat) : bool :=
  if length df_slice - 1 <=? row_index then false
  else
    let current_row := iloc df_slice row_index in
    let next_row := iloc df_slice (row_index + 1) in
    let non_empty_cells := dropna current_row in
    if length non_empty_cells =? 0 then false
    else
      let string_cells := length (List.filter is_str non_empty_cells) in
      let has_next_row_data := 0 <? length (dropna next_row) in
      (length non_empty_cells <? 2 * string_cells) && has_next_row_data.

(** The [for i in range(n): if p(i): return i] loop, with its fall-back. *)
Definition first_index (p : nat -> bool) (n : nat) (fallback : nat) : nat :=
  match List.find p (seq 0 n) with
  | Some i => i
  | None => fallback
  end.

(** extact2-*.py, [find_header_row]. *)
Definition find_header_row (df : table) : nat :=
  let check_rows := Nat.min 10 (length df) in
  first_index (is_header_row (firstn check_rows df)) (check_rows - 1) 0.

(** ** extract1-可用.py *)

Definition is_digit (c : N) : bool := ((48 <=? c) && (c <=? 57))%N.

Fixpoint skip_digits (s : str) : str :=
  match s with
  | [] => []
  | c :: rest => if is_digit c then skip_digits rest else s
  end.

(** [re.match(r'^-?\d+\.?\d*$', s)] on a stripped string. *)
Definition numeric_looking (s : str) : bool :=
  let s1 := match s with
            | c :: rest => if (c =? dash)%N then rest else s
            | [] => s
            end in
  match s1 with
  | c :: _ =>
      is_digit c &&
      match skip_digits s1 with
      | [] => true
      | d :: rest => (d =? dot)%N && (length (skip_digits rest) =? 0)
      end
  | [] => false
  end.

(** The cells [is_header_row] of extract1 counts as strings. *)
Definition string_like (c : cell) : bool :=
  match c with
  | Missing => false
  | Text _ => true
  | Number r =>
      let str_value := strip r in
      negb (length str_value =? 0) && negb (numeric_looking str_value)
  end.

Definition is_header_row_v1 (df : table) (row_index : nat) : bool :=
  if length df - 1 <=? row_index then false
  else
    let current_row := iloc df row_index in
    let next_row := iloc df (row_index + 1) in
    if length (dropna current_row) =? 0 then false
    else
      let total_non_empty := length (dropna current_row) in
      let string_cells := length (List.filter string_like current_row) in
      if total_non_empty =? 0 then false
      else
        let next_row_has_content := 0 <? length (dropna next_row) in
        (total_non_empty <? 2 * string_cells) && next_row_has_content.

(** extract1-可用.py, [find_header_row]: [range(min(10, len(df) - 1))]. *)
Definition find_header_row_v1 (df : table) : nat :=
  first_index (is_header_row_v1 df) (Nat.min 10 (length df - 1)) 0.

(** ** extact2-*.py, [process_header] *)
Definition header_blank (header_cell : cell) : bool :=
  match header_cell with
  | Missing => true
  | Text s => str_eqb s []
  | Number _ => false
  end.

Definition column_name (first_data_row : row) (idx : nat) (header_cell : cell) : str :=
  if header_blank header_cell then
    if (idx <? length first_data_row) && negb (isna (nth idx first_data_row Missing))
    then cell_str (nth idx first_data_row Missing)
    else lit "Column_" ++ of_nat idx
  else cell_str header_cell.

Definition process_header (header_row first_data_row : row) : list str :=
  imap (column_name first_data_row) header_row.

End Frame.

(* ===================================================================== *)
(** * Category names *)
(* ===================================================================== *)

Module Category.
(** "名称" *)
Definition NAME : str := [0x540D; 0x79F0]%N.
(** "标准" *)
Definition STANDARD : str := [0x6807; 0x51C6]%N.
(** "材质" *)
Definition MATERIAL : str := [0x6750; 0x8D28]%N.
(** "备注" *)
Definition REMARK : str := [0x5907; 0x6CE8]%N.
Definition DESCRIPTION : str := lit "description".
End Category.
Import Category.

(* ===================================================================== *)
(** * extact2-提取历史已拆分.py: harvesting into the knowledge base *)
(* ===================================================================== *)

Module Harvest.
Import Frame.

(** [self.all_data]: column name to the set of its values. *)
Abbreviation knowledge := (gmap str (gset str)).

(** What [pd.read_excel] gives for one sheet. *)
Inductive sheet :=
| Unreadable
| Sheet (df : table).

(** [re.search('[\u4e00-\u9fff]', text)] *)
Definition contains_chinese (text : str) : bool :=
  existsb (fun c => (0x4E00 <=? c) && (c <=? 0x9FFF))%N text.

(** String order of [sorted]: code point by code point. *)
Fixpoint str_leb (a b : str) : bool :=
  match a, b with
  | [], _ => true
  | _ :: _, [] => false
  | x :: a', y :: b' => (x <? y)%N || ((x =? y)%N && str_leb a' b')
  end.

(** [sorted(values)] *)
Definition sorted (values : gset str) : list str :=
  merge_sort (fun a b => Is_true (str_leb a b)) (elements values).

Section Extractor.
  (** The extractor's configuration, and the three built-ins of the
      runtime the script calls: [str.lower], and whether [float(s)] and
      [int(s)] accept a string. *)
Variable keywords : list str.
Variable white_list_keywords : list str.
Variable lower : str -> str.
Variable float_ok : str -> bool.
Variable int_ok : str -> bool.

(** [is_in_white_list]; [None] is a missing name. *)
Definition is_in_white_list (column_name : option str) : bool :=
  match column_name with
  | None => false
  | Some name =>
      if str_eqb name [] then false
      else existsb (fun keyword => py_in (lower keyword) (lower name))
             white_list_keywords
  end.

(** [should_skip_column] *)
Definition should_skip_column (column_name : option str) : bool :=
  match column_name with
  | None => false
  | Some name =>
      if str_eqb name [] then false
      else if existsb (fun keyword => py_in (lower keyword) (lower name))
                keywords then true
      else if negb (contains_chinese name) then true
      else false
  end.

(** The body of [for item in column_data]: the value added to
    [processed_data], if any. *)
Definition keep_item (item : cell) : option str :=
  match item with
  | Missing => None
  | Number _ => None
  | Text s =>
      if (if py_in [dot] s then float_ok s else int_ok s) then None
      else
        let item := strip s in
        if contains_chinese item then None
        else if str_eqb item [dash] then None
        else Some item
  end.

Definition processed_data (column_data : list cell) : gset str :=
  list_to_set (omap keep_item column_data).

(** Some value already stored is a substring of [item]. *)
Definition subsumed (existing : gset str) (item : str) : Prop :=
  set_Exists (fun item2 => py_in item2 item = true) existing.

(** Lines 232-243: merge the values of one column. *)
Definition merge_column (col_name : str) (processed : gset str)
    (all_data : knowledge) : knowledge :=
  let existing := default ∅ (all_data !! col_name) in
  let processed :=
    if decide (col_name = STANDARD)
    then filter (fun item => ¬ subsumed existing item) processed
    else processed in
  <[col_name := existing ∪ processed]> all_data.

(** One round of [for col_idx, col_name in enumerate(column_names)]. *)
Definition harvest_column (data_df : table) (all_data : knowledge)
    (entry : nat * str) : knowledge :=
  let '(col_idx, col_name) := entry in
  if width data_df <=? col_idx then all_data
  else if should_skip_column (Some col_name) then all_data
  else if negb (is_in_white_list (Some col_name)) then all_data
  else
    let column_data := dropna (column data_df col_idx) in
    merge_column col_name (processed_data column_data) all_data.

Definition harvest_columns (column_names : list str) (data_df : table)
    (all_data : knowledge) : knowledge :=
  fold_left (harvest_column data_df) (imap pair column_names) all_data.

(** [pd.read_excel(file_path, sheet_name=0, header=None, skiprows=k)] *)
Definition read_skiprows (s : sheet) (k : nat) : sheet :=
  match s with
  | Unreadable => Unreadable
  | Sheet df => Sheet (skipn k df)
  end.

(** The loop [for i in range(num_sheets)] of [process_excel_file];
    [first] is sheet 0 of the file.  A [return], and an exception
    (caught outside the loop), both end the file. *)
Fixpoint sheets_loop (first : sheet) (sheets : list sheet)
    (all_data : knowledge) : knowledge :=
  match sheets with
  | [] => all_data
  | Unreadable :: _ => all_data
  | Sheet df :: rest =>
      if empty df then all_data
      else
        let header_row_index := find_header_row df in
        let header_row := iloc df header_row_index in
        let data_start_row := header_row_index + 1 in
        if length df <=? data_start_row then all_data
        else
          let first_data_row := iloc df data_start_row in
          let column_names := process_header header_row first_data_row in
          match read_skiprows first data_start_row with
          | Unreadable => all_data
          | Sheet data_df =>
              sheets_loop first rest
                (harvest_columns column_names data_df all_data)
          end
  end.

(** [process_excel_file]: a workbook is the list of its sheets. *)
Definition process_excel_file (workbook : list sheet)
    (all_data : knowledge) : knowledge :=
  match workbook with
  | [] => all_data
  | first :: _ => sheets_loop first workbook all_data
  end.

(** The end of [process_folder]: sort every column, drop the empty ones. *)
Definition finalize (all_data : knowledge) : gmap str (list str) :=
  filter (fun kv => kv.2 ≠ []) (sorted <$> all_data).

End Extractor.
End Harvest.

(* ===================================================================== *)
(** * Growth of the knowledge base *)
(* ===================================================================== *)

Module Knowledge_order.
Import Harvest.

(** The values stored for a column, none when the column is unknown. *)
Definition stored (all_data : knowledge) (col_name : str) : gset str :=
  default ∅ (all_data !! col_name).

(** [b] has every column of [a], with at least its values. *)
Definition covers (a b : knowledge) : Prop :=
  forall k S, a !! k = Some S -> exists S', b !! k = Some S' /\ S ⊆ S'.

(** A step that only adds, and that changes nothing once its additions
    are there. *)
Definition absorbing (f : knowledge -> knowledge) : Prop :=
  (forall kb, covers kb (f kb))
  /\ (forall kb kb', covers (f kb) kb' -> f kb' = kb').

(** The values a merge adds to the column. *)
Definition additions (col_name : str) (processed : gset str)
    (all_data : knowledge) : gset str :=
  if decide (col_name = STANDARD)
  then filter (fun item => ¬ subsumed (stored all_data col_name) item) processed
  else processed.

End Knowledge_order.

(* ===================================================================== *)
(** * extact2-自动拆分.py: decomposition of free-text cells *)
(* ===================================================================== *)

Module Split.

(** A Python [dict] with [str] keys, in insertion order. *)
Definition dict (V : Type) := list (str * V).

(** [d.get(key)] *)
Fixpoint dict_get {V} (d : dict V) (key : str) : option V :=
  match d with
  | [] => None
  | (k, v) :: rest => if str_eqb k key then Some v else dict_get rest key
  end.

(** [d[key] = value] *)
Fixpoint dict_set {V} (d : dict V) (key : str) (value : V) : dict V :=
  match d with
  | [] => [(key, value)]
  | (k, v) :: rest =>
      if str_eqb k key then (k, value) :: rest
      else (k, v) :: dict_set rest key value
  end.

(** [token if cur == "" else f"{cur},{token}"], where [cur] is
    [row_data.get(key)]; a missing key formats as [None]. *)
Definition joined (cur : option str) (token : str) : str :=
  match cur with
  | Some [] => token
  | Some s => s ++ [comma] ++ token
  | None => lit "None" ++ [comma] ++ token
  end.

(** Lines 269-271: the split that is kept. *)
Definition choose_split (value : str) : list str :=
  let split1 := py_split comma value in
  let split2 := py_split semicolon value in
  if length split2 <? length split1 then split1 else split2.

(** Lines 269-272. *)
Definition tokens (value : str) : list str :=
  List.map (fun item => newlines_to_spaces (strip item)) (choose_split value).

(** [best_match_score]: set at line 281, read at line 301, never
    assigned again. *)
Definition best_match_score : Z := 0.

Definition score_cutoff : Z := 80.

(** [int(round(score))]: the nearest integer, the even one at a half. *)
Definition py_round (score : Q) : Z :=
  let below := Qfloor score in
  match Qcompare (2 * (score - inject_Z below)) 1 with
  | Lt => below
  | Gt => (below + 1)%Z
  | Eq => if Z.even below then below else (below + 1)%Z
  end.

Section Decomposer.
  (** The built-ins and the library the script calls: [str.lower],
    [is_number] (whether [float(s)] accepts the string), and the score
    the library computes for a query and a choice with
    [fuzz.token_sort_ratio], before it is rounded: a floating-point
    number, held as the rational number it stands for. *)
Variable lower : str -> str.
Variable float_ok : str -> bool.
Variable scorer : str -> str -> Q.

Definition is_number (s : str) : bool := float_ok s.

(** The search of [process.extractBests(query, choices, scorer=...,
    score_cutoff=80, limit=1)]: the best choice among those whose score,
    not yet rounded, is at least the cut-off; the earliest one on equal
    scores. *)
Definition better (query : str) (best : list (str * Q)) (choice : str)
    : list (str * Q) :=
  let sc := scorer query choice in
  if negb (Qle_bool (inject_Z score_cutoff) sc) then best
  else match best with
       | [] => [(choice, sc)]
       | (_, b) :: _ => if Qle_bool sc b then best else [(choice, sc)]
       end.

(** [process.extractBests]: the choice found, with its score rounded. *)
Definition extractBests (query : str) (choices : list str) : list (str * Z) :=
  List.map (fun found : str * Q => (found.1, py_round found.2))
    (fold_left (better query) choices []).

(** The state of the loop over the columns for one token; [None] is
    the [TypeError] of [len(None)]. *)
Definition state := option (dict str * bool).

(** Line 289: one candidate of the name column. *)
Definition name_candidate (split_value : str) (row_data : option (dict str))
    (map_value : str) : option (dict str) :=
  match row_data with
  | None => None
  | Some row_data =>
      if py_in (lower map_value) (lower split_value) then
        match dict_get row_data NAME with
        | Some cur =>
            Some (dict_set row_data NAME
                    (if str_eqb cur [] || (length cur <=? length map_value)
                     then map_value else cur))
        | None => None
        end
      else Some row_data
  end.

(** Lines 286-289. *)
Definition name_scan (split_value : str) (map_values : list str)
    (row_data : dict str) : option (dict str) :=
  fold_left (name_candidate split_value) map_values (Some row_data).

(** Lines 293-297: the first candidate contained in the token. *)
Definition substring_hit (split_value : str) (map_values : list str) : bool :=
  existsb (fun map_value => py_in (lower map_value) (lower split_value))
    map_values.

(** Lines 300-306. *)
Definition fuzzy_step (split_value map_col_name : str) (map_values : list str)
    (row_data : dict str) (is_match : bool) : dict str * bool :=
  match extractBests split_value map_values with
  | (_, score) :: _ =>
      if (best_match_score <? score)%Z then
        (if str_eqb map_col_name NAME
         then dict_set row_data map_col_name split_value
         else dict_set row_data map_col_name
                (joined (dict_get row_data map_col_name) split_value),
         true)
      else (row_data, is_match)
  | [] => (row_data, is_match)
  end.

(** Lines 283-306: one column for one token. *)
Definition column_step (split_value : str) (st : state)
    (entry : str * list str) : state :=
  let '(map_col_name, map_values) := entry in
  match st with
  | None => None
  | Some (row_data, is_match) =>
      match (if str_eqb map_col_name NAME
             then name_scan split_value map_values row_data
             else Some row_data) with
      | None => None
      | Some row_data =>
          if str_eqb map_col_name STANDARD || str_eqb map_col_name MATERIAL
          then
            if substring_hit split_value map_values
            then Some (dict_set row_data map_col_name
                         (joined (dict_get row_data map_col_name) split_value),
                       true)
            else Some (row_data, is_match)
          else Some (fuzzy_step split_value map_col_name map_values
                       row_data is_match)
      end
  end.

(** Line 280. *)
Definition skipped (split_value : str) : bool :=
  is_number split_value || str_eqb split_value [] || str_eqb split_value [dash].

(** Lines 279-308: one token. *)
Definition token_step (orign_map_data : dict (list str))
    (row_data : option (dict str)) (split_value : str) : option (dict str) :=
  match row_data with
  | None => None
  | Some row_data =>
      if skipped split_value then Some row_data
      else
        match fold_left (column_step split_value) orign_map_data
                (Some (row_data, false)) with
        | None => None
        | Some (row_data, is_match) =>
            if is_match then Some row_data
            else Some (dict_set row_data REMARK
                         (joined (dict_get row_data REMARK) split_value))
        end
  end.

(** Lines 273-278: the fresh record. *)
Definition initial_row (orign_map_data : dict (list str)) (value : str)
    : dict str :=
  dict_set
    (fold_left (fun row_data key => dict_set row_data key [])
       (List.map fst orign_map_data)
       (dict_set [] DESCRIPTION value))
    REMARK [].

(** Lines 268-309: the record of one description cell. *)
Definition decompose (orign_map_data : dict (list str)) (value : str)
    : option (dict str) :=
  fold_left (token_step orign_map_data) (tokens value)
    (Some (initial_row orign_map_data value)).

(** [should_skip_column] of this script. *)
Definition should_skip_column (keywords : list str)
    (column_name : option str) : bool :=
  match column_name with
  | None => false
  | Some name =>
      if str_eqb name [] then false
      else existsb (fun keyword => py_in (lower keyword) (lower name)) keywords
  end.

End Decomposer.
End Split.

(* ===================================================================== *)
(** * The runtime on ASCII text *)
(* ===================================================================== *)

(** What Python's built-ins ([str.lower], [float], [int]) and the fuzzy
    matching library ([fuzz.token_sort_ratio]) compute on ASCII strings.
    The scripts are parametric in them; these definitions serve to run the
    scripts on concrete ASCII inputs. *)
Module Ascii_runtime.
Import Frame.

(** [str.lower] *)
Definition lower (s : str) : str :=
  List.map (fun c => if (65 <=? c) && (c <=? 90) then c + 32 else c)%N s.

Definition underscore : N := 95.

(** The rest after [(["_"] digit)*]. *)
Fixpoint digits_tail (s : str) : str :=
  match s with
  | [] => []
  | c :: rest =>
      if is_digit c then digits_tail rest
      else if (c =? underscore)%N then
        match rest with
        | d :: rest' => if is_digit d then digits_tail rest' else s
        | [] => s
        end
      else s
  end.

(** [digitpart ::= digit (["_"] digit)*] *)
Definition digitpart (s : str) : option str :=
  match s with
  | c :: rest => if is_digit c then Some (digits_tail rest) else None
  | [] => None
  end.

Definition skip_sign (s : str) : str :=
  match s with
  | c :: rest => if (c =? 43)%N || (c =? 45)%N then rest else s
  | [] => s
  end.

(** [number ::= [digitpart] "." digitpart | digitpart ["."]] *)
Definition number (s : str) : option str :=
  match digitpart s with
  | Some r =>
      match r with
      | c :: r' =>
          if (c =? dot)%N
          then match digitpart r' with Some r'' => Some r'' | None => Some r' end
          else Some r
      | [] => Some r
      end
  | None =>
      match s with
      | c :: r => if (c =? dot)%N then digitpart r else None
      | [] => None
      end
  end.

(** [floatnumber ::= number [("e" | "E") [sign] digitpart]], to the end. *)
Definition floatnumber (s : str) : bool :=
  match number s with
  | Some [] => true
  | Some (c :: r) =>
      ((c =? 101)%N || (c =? 69)%N) &&
      match digitpart (skip_sign r) with
      | Some [] => true
      | _ => false
      end
  | None => false
  end.

(** Whether [float(s)] returns: optional sign, then a float number,
    [inf], [infinity] or [nan] in any case, white space around. *)
Definition float_ok (s : str) : bool :=
  let body := skip_sign (strip s) in
  floatnumber body
  || str_eqb (lower body) (lit "inf")
  || str_eqb (lower body) (lit "infinity")
  || str_eqb (lower body) (lit "nan").

(** Whether [int(s)] returns: optional sign, then a digit part. *)
Definition int_ok (s : str) : bool :=
  match digitpart (skip_sign (strip s)) with
  | Some [] => true
  | _ => false
  end.

(** ** [fuzz.token_sort_ratio] *)

Definition is_alnum (c : N) : bool :=
  (is_digit c || (65 <=? c) && (c <=? 90) || (97 <=? c) && (c <=? 122))%N.

(** [utils.full_process]: other characters become spaces, lower case,
    stripped. *)
Definition full_process (s : str) : str :=
  strip (lower (List.map (fun c => if is_alnum c then c else 32%N) s)).

(** [s.split()] of a processed string: its words. *)
Fixpoint words_from (cur : str) (s : str) : list str :=
  match s with
  | [] => match cur with [] => [] | _ => [rev cur] end
  | c :: rest =>
      if is_space c
      then match cur with
           | [] => words_from [] rest
           | _ => rev cur :: words_from [] rest
           end
      else words_from (c :: cur) rest
  end.

Fixpoint join_words (ws : list str) : str :=
  match ws with
  | [] => []
  | [w] => w
  | w :: rest => w ++ [32%N] ++ join_words rest
  end.

(** [" ".join(sorted(s.split()))] *)
Definition sorted_tokens (s : str) : str :=
  join_words
    (merge_sort (fun a b => Is_true (Harvest.str_leb a b)) (words_from [] s)).

(** One row of the longest-common-subsequence table. *)
Fixpoint lcs_row (x : N) (b : str) (prev : list nat) (diag left : nat)
    : list nat :=
  match b, prev with
  | y :: b', up :: prev' =>
      let cur := if (x =? y)%N then S diag else Nat.max up left in
      cur :: lcs_row x b' prev' up cur
  | _, _ => []
  end.

Definition lcs (a b : str) : nat :=
  List.last
    (fold_left (fun prev x => lcs_row x b prev 0 0) a (repeat 0 (length b)))
    0.

(** [fuzz.ratio] before rounding:
    [100 * 2 * lcs / (len(a) + len(b))], as a fraction in lowest terms. *)
Definition ratio (a b : str) : Q :=
  let total := length a + length b in
  if total =? 0 then 100%Q
  else Qred (Qmake (200 * Z.of_nat (lcs a b)) (Pos.of_nat total)).

Definition token_sort_ratio (query choice : str) : Q :=
  ratio (sorted_tokens (full_process query))
        (sorted_tokens (full_process choice)).

End Ascii_runtime.

(* ===================================================================== *)
(** * Section 4.1 of the specification, in its own words *)
(* ===================================================================== *)

Module Locator_spec.
Import Frame.

(** The row has a non-missing cell, and more than half of its non-missing
    cells count as strings. *)
Definition string_majority (is_string : cell -> bool) (r : row) : bool :=
  let non_empty := dropna r in
  negb (length non_empty =? 0)
  && (length non_empty <? 2 * length (List.filter is_string non_empty)).

(** The row has a non-missing cell. *)
Definition has_data (r : row) : bool := 0 <? length (dropna r).

(** Row [i] qualifies as header: string ratio above one half, and data in
    the row that follows. *)
Definition qualifies (is_string : cell -> bool) (df : table) (i : nat) : bool :=
  string_majority is_string (iloc df i) && has_data (iloc df (i + 1)).

(** [r] is the first of the candidates [0 .. candidates - 1] that
    qualifies, or 0 when none does. *)
Definition first_qualifying (is_string : cell -> bool) (df : table)
    (candidates r : nat) : Prop :=
  (r < candidates /\ qualifies is_string df r = true
   /\ forall j, j < r -> qualifies is_string df j = false)
  \/ (r = 0 /\ forall i, i < candidates -> qualifies is_string df i = false).

End Locator_spec.

(* ===================================================================== *)
(** * Section 4.7 of the specification, in terms of the token and the
      knowledge base *)
(* ===================================================================== *)

Module Decomposer_spec.
Import Split.

Section Rules.
Variable lower : str -> str.
Variable float_ok : str -> bool.
Variable scorer : str -> str -> Q.

(** Some candidate of the column scores at least the cut-off. *)
Definition fuzzy_hit (token : str) (candidates : list str) : bool :=
  existsb (fun v => Qle_bool (inject_Z score_cutoff) (scorer token v)) candidates.

(** The column marks the token as matched: a substring hit in a "标准" or
    "材质" column, a fuzzy hit in any other column. *)
Definition hit (token : str) (entry : str * list str) : bool :=
  if str_eqb entry.1 STANDARD || str_eqb entry.1 MATERIAL
  then substring_hit lower token entry.2
  else fuzzy_hit token entry.2.

(** Some column marks the token as matched. *)
Definition matched (kb : dict (list str)) (token : str) : bool :=
  existsb (hit token) kb.

(** What [extractBests] holds after the choices [seen]: nothing when none
    reaches the cut-off, else one choice with the highest score. *)
Definition best_of (query : str) (seen : list str) (best : list (str * Q)) : Prop :=
  (best = [] /\ forall c, In c seen -> (scorer query c < inject_Z score_cutoff)%Q)
  \/ (exists v, best = [(v, scorer query v)] /\ In v seen
                /\ (inject_Z score_cutoff <= scorer query v)%Q
                /\ forall c, In c seen -> (scorer query c <= scorer query v)%Q).

(** The candidate, case ignored, is a substring of the token. *)
Definition accepts (token candidate : str) : bool :=
  py_in (lower candidate) (lower token).

(** The candidates of the "名称" column that one token accepts, in the
    order the script meets them. *)
Definition name_accepts (kb : dict (list str)) (token : str) : list str :=
  flat_map
    (fun entry : str * list str =>
       if str_eqb entry.1 NAME then List.filter (accepts token) entry.2 else [])
    kb.

(** The same over the tokens of a record that are not skipped. *)
Definition accepted (kb : dict (list str)) (tokens : list str) : list str :=
  flat_map
    (fun token => if skipped float_ok token then [] else name_accepts kb token)
    tokens.

(** No token of the record that is not skipped has a fuzzy hit in the
    "名称" column. *)
Definition no_fuzzy_name_hit (kb : dict (list str)) (tokens : list str) : Prop :=
  forall token entry,
    In token tokens -> skipped float_ok token = false ->
    In entry kb -> entry.1 = NAME -> fuzzy_hit token entry.2 = false.

End Rules.

(** The longer of the current name and a newly accepted candidate, the
    new one on equal lengths. *)
Definition pick (cur candidate : str) : str :=
  if str_eqb cur [] || (length cur <=? length candidate) then candidate else cur.

End Decomposer_spec.

(* ===================================================================== *)
(** * Concrete inputs *)
(* ===================================================================== *)

Module Inputs.
Import Frame Harvest Split.

(** A table of eleven one-cell rows: nine numbers, a text, a number. *)
Definition late_header : table :=
  repeat [Number (lit "1")] 9 ++ [[Text (lit "Item")]; [Number (lit "1")]].

(** The configuration of [main] in extact2-提取历史已拆分.py. *)
Definition skip_keywords : list str :=
  [lit "Description"; [0x63CF; 0x8FF0]%N; lit "NO"; lit "S/N"; lit "UNIT";
   lit "QTY"; lit "UoM"; lit "ITEM"].

(** "工艺", "外径", "壁厚", "材质", "标准", "压力", "尺寸", "名称", "连接面" *)
Definition white_list : list str :=
  [[0x5DE5; 0x827A]; [0x5916; 0x5F84]; [0x58C1; 0x539A]; MATERIAL; STANDARD;
   [0x538B; 0x529B]; [0x5C3A; 0x5BF8]; NAME; [0x8FDE; 0x63A5; 0x9762]]%N.

(** "压力" and "尺寸", two columns without special treatment. *)
Definition PRESSURE : str := [0x538B; 0x529B]%N.
Definition SIZE : str := [0x5C3A; 0x5BF8]%N.

Definition a312 : str := lit "A312".
Definition astm_a312 : str := lit "ASTM A312".
Definition a106 : str := lit "A106".
Definition ss316 : str := lit "SS316".

Definition steel : str := lit "Steel".
Definition stainless_steel : str := lit "Stainless Steel".
Definition seamless_pipe : str := lit "Stainless Steel Seamless Pipe 316L".

(** The decomposing script on ASCII text. *)
Definition decompose_ascii : dict (list str) -> str -> option (dict str) :=
  decompose Ascii_runtime.lower Ascii_runtime.float_ok
    Ascii_runtime.token_sort_ratio.

(** Thirty-three letters "a", and the same followed by seventeen "b":
    their score is 6600/83, between 79.5 and 80. *)
Definition a_run : str := repeat 97%N 33.
Definition a_run_b_run : str := repeat 97%N 33 ++ repeat 98%N 17.


(** A knowledge base with the one column "名称", its values sorted. *)
Definition names_kb : dict (list str) := [(NAME, [stainless_steel; steel])].

(** The harvesting script as [main] configures it, on ASCII values. *)
Definition harvest_main : list sheet -> knowledge -> knowledge :=
  process_excel_file skip_keywords white_list Ascii_runtime.lower
    Ascii_runtime.float_ok Ascii_runtime.int_ok.

(** A sheet with the one column "标准" and two values. *)
Definition standard_sheet : table :=
  [[Text STANDARD]; [Text a312]; [Text astm_a312]].

(** A sheet with the one column "材质" and one value. *)
Definition material_sheet : table :=
  [[Text MATERIAL]; [Text ss316]].

(** A workbook of two sheets, and two whose first sheet gives nothing. *)
Definition two_sheets : list sheet :=
  [Sheet [[Text STANDARD]; [Text a312]]; Sheet material_sheet].
Definition empty_then_material : list sheet :=
  [Sheet []; Sheet material_sheet].
Definition unreadable_then_material : list sheet :=
  [Unreadable; Sheet material_sheet].

End Inputs.

(* ===================================================================== *)
(** * extact2-提取历史已拆分.py: the whole run *)
(* ===================================================================== *)

Module Harvest_run.
Import Harvest Knowledge_order.

(** An Excel file of the folder: one that [pd.ExcelFile] cannot open, or
    its sheets. *)
Inductive excel_file :=
| Corrupt
| Workbook (sheets : list sheet).

(** Lines 271-275: the snapshot [read_json_file] returned, [None] when the
    file could not be read; every value list becomes a set. *)
Definition load_snapshot (orign_map_data : option (gmap str (list str)))
    : knowledge :=
  match orign_map_data with
  | None => ∅
  | Some data => list_to_set <$> data
  end.

Section Run.
Variable keywords : list str.
Variable white_list_keywords : list str.
Variable lower : str -> str.
Variable float_ok : str -> bool.
Variable int_ok : str -> bool.

(** Lines 277-279, one file; an exception leaves [self.all_data] as it
    was. *)
Definition harvest_file (all_data : knowledge) (file : excel_file) : knowledge :=
  match file with
  | Corrupt => all_data
  | Workbook sheets =>
      process_excel_file keywords white_list_keywords lower float_ok int_ok
        sheets all_data
  end.

(** [process_folder], from the snapshot and the Excel files of the folder:
    [self.all_data] when it returns.  Without Excel files it returns
    before the snapshot is read. *)
Definition process_folder (orign_map_data : option (gmap str (list str)))
    (excel_files : list excel_file) : gmap str (list str) :=
  match excel_files with
  | [] => ∅
  | _ :: _ =>
      finalize (fold_left harvest_file excel_files (load_snapshot orign_map_data))
  end.

(** [main]: the snapshot file after the run.  It is written when
    [self.all_data] is not empty, and otherwise left as it was ([None]: no
    readable file). *)
Definition snapshot_after_main (orign_map_data : option (gmap str (list str)))
    (excel_files : list excel_file) : option (gmap str (list str)) :=
  let all_data := process_folder orign_map_data excel_files in
  if decide (all_data = ∅) then orign_map_data else Some all_data.

End Run.

(** The values of every column of [a] are values of that column in [b]. *)
Definition values_within (a b : knowledge) : Prop :=
  forall k, stored a k ⊆ stored b k.

(** A step that only adds values, and that adds none once its additions
    are there. *)
Definition settling (f : knowledge -> knowledge) : Prop :=
  (forall kb, values_within kb (f kb))
  /\ (forall kb kb', values_within (f kb) kb' ->
        forall k, stored (f kb') k = stored kb' k).

(** The order of [sorted]. *)
Definition str_le (a b : str) : Prop := Is_true (str_leb a b).

(** A value as the harvest keeps it: stripped, without CJK character, and
    not a lone dash. *)
Definition clean (v : str) : Prop :=
  strip v = v /\ contains_chinese v = false /\ v <> [dash].

End Harvest_run.

(* ===================================================================== *)
(** * extact2-自动拆分.py: the description cells of a file *)
(* ===================================================================== *)

Module Split_file.
Import Frame Harvest.

Section Collector.
Variable white_list_keywords : list str.
Variable lower : str -> str.

(** Lines 198-208: the cells one column adds to [current_file_data]. *)
Definition collect_column (data_df : table) (entry : nat * str) : list cell :=
  let '(col_idx, col_name) := entry in
  if width data_df <=? col_idx then []
  else if negb (is_in_white_list white_list_keywords lower (Some col_name))
  then []
  else dropna (column data_df col_idx).

(** [process_excel_file] of this script, on the first sheet of the file:
    the list stored in [self.orign_data[file_path]], [None] when the file
    gets no entry. *)
Definition process_excel_file (first : sheet) : option (list cell) :=
  match first with
  | Unreadable => None
  | Sheet df =>
      if empty df then None
      else
        let header_row_index := find_header_row df in
        let header_row := iloc df header_row_index in
        let data_start_row := header_row_index + 1 in
        if length df <=? data_start_row then None
        else
          let first_data_row := iloc df data_start_row in
          let column_names := process_header header_row first_data_row in
          let data_df := skipn data_start_row df in
          Some (flat_map (collect_column data_df) (imap pair column_names))
  end.

End Collector.

(** [cur] with the token joined, as lines 296, 306 and 308 do. *)
Definition join_tokens (tokens : list str) : str :=
  fold_left (fun cur token => Split.joined (Some cur) token) tokens [].

End Split_file.

(* ===================================================================== *)
(** * extract1-可用.py: column names *)
(* ===================================================================== *)

Module Extract1.
Import Frame.



(** [should_skip_column] of this script: the keyword test keeps the case. *)
Definition should_skip_column (skip_keywords : list str)
    (column_name : option str) : bool :=
  match column_name with
  | None => false
  | Some name =>
      existsb (fun keyword => py_in keyword (strip name)) skip_keywords
  end.

End Extract1.

(* ===================================================================== *)
(** * Concrete runs *)
(* ===================================================================== *)

Module Run_inputs.
Import Frame Harvest Harvest_run Inputs.

(** [process_folder] as [main] configures it, on ASCII values. *)
Definition run_main
    : option (gmap str (list str)) -> list excel_file -> gmap str (list str) :=
  process_folder skip_keywords white_list Ascii_runtime.lower
    Ascii_runtime.float_ok Ascii_runtime.int_ok.

(** A snapshot with the one column "标准". *)
Definition first_snapshot : gmap str (list str) := {[STANDARD := [a312]]}.

(** A folder of three files: one that cannot be opened, and two workbooks
    of one sheet. *)
Definition folder : list excel_file :=
  [Corrupt; Workbook [Sheet standard_sheet]; Workbook [Sheet material_sheet]].

(** A knowledge base of three columns, and a description of six pieces:
    three that contain a candidate, one that equals one, one that matches
    nothing, and a number. *)
Definition catalog_kb : Split.dict (list str) :=
  [(MATERIAL, [ss316]); (STANDARD, [a312]); (PRESSURE, [lit "150LB"])].
Definition order_line : str :=
  lit "SS316 seamless, ASTM A312, A312 TP316, 150LB, flange, 1500".

End Run_inputs.

(* ===================================================================== *)
(** * Facts about strings *)
(* ===================================================================== *)

Module String_facts.

Lemma str_eqb_true (a b : str) : str_eqb a b = true <-> a = b.
Proof. unfold str_eqb. apply bool_decide_eq_true. Qed.

Lemma str_eqb_false (a b : str) : str_eqb a b = false <-> a <> b.
Proof. unfold str_eqb. apply bool_decide_eq_false. Qed.

Lemma str_eqb_refl (a : str) : str_eqb a a = true.
Proof. by apply str_eqb_true. Qed.

Lemma starts_with_refl (s : str) : starts_with s s = true.
Proof.
  induction s as [|c s IH]; simpl; [done|].
  by rewrite N.eqb_refl, IH.
Qed.

(** Every string contains itself. *)
Lemma py_in_refl (s : str) : py_in s s = true.
Proof. destruct s; simpl; [done|]. by rewrite N.eqb_refl, starts_with_refl. Qed.

Lemma py_split_nonempty (sep : N) (s : str) : py_split sep s <> [].
Proof.
  induction s as [|c s IH]; simpl; [done|].
  destruct (c =? sep)%N; [done|]. by destruct (py_split sep s).
Qed.

(** [split] gives one piece more than there are separators. *)
Lemma py_split_length (sep : N) (s : str) :
  length (py_split sep s) = S (occurrences sep s).
Proof.
  unfold occurrences. induction s as [|c s IH]; simpl; [done|].
  destruct (c =? sep)%N; simpl; [by rewrite IH|].
  destruct (py_split sep s) eqn:E; simpl in *; lia.
Qed.

End String_facts.
Import String_facts.

(* ===================================================================== *)
(** * The header locator *)
(* ===================================================================== *)

Module Locator_facts.
Import Frame Locator_spec Inputs.

Lemma find_seq_first (p : nat -> bool) (n start i : nat) :
  List.find p (seq start n) = Some i ->
  start <= i < start + n /\ p i = true /\ forall j, start <= j < i -> p j = false.
Proof.
  revert start. induction n as [|n IH]; intros start; simpl; [done|].
  destruct (p start) eqn:E.
  - intros [= <-]. repeat split; [lia..|done|]. intros j Hj. lia.
  - intros H. apply IH in H as (Hr & Hp & Hlt).
    repeat split; [lia..|done|].
    intros j Hj. destruct (decide (j = start)) as [->|]; [done|]. apply Hlt. lia.
Qed.

Lemma find_seq_none (p : nat -> bool) (n start : nat) :
  List.find p (seq start n) = None ->
  forall j, start <= j < start + n -> p j = false.
Proof.
  revert start. induction n as [|n IH]; intros start; simpl; [lia|].
  destruct (p start) eqn:E; [done|].
  intros H j Hj. destruct (decide (j = start)) as [->|]; [done|].
  apply (IH (S start)); [done|lia].
Qed.

(** What the search loop returns. *)
Lemma first_index_spec (p : nat -> bool) (n : nat) :
  let r := first_index p n 0 in
  (r < n /\ p r = true /\ forall j, j < r -> p j = false)
  \/ (r = 0 /\ forall i, i < n -> p i = false).
Proof.
  unfold first_index. destruct (List.find p (seq 0 n)) as [i|] eqn:E; simpl.
  - left. apply find_seq_first in E as (Hr & Hp & Hlt).
    repeat split; [lia|done|]. intros j Hj. apply Hlt. lia.
  - right. split; [done|]. intros i Hi. apply (find_seq_none _ _ _ E). lia.
Qed.

Lemma first_index_ext (p q : nat -> bool) (n fb : nat) :
  (forall i, i < n -> p i = q i) -> first_index p n fb = first_index q n fb.
Proof.
  intros H. unfold first_index.
  assert (forall start, (forall i, start <= i < start + n -> p i = q i) ->
            List.find p (seq start n) = List.find q (seq start n)) as Hfind.
  { clear H. induction n as [|n IH]; intros start H; simpl; [done|].
    rewrite <- (H start) by lia. destruct (p start); [done|].
    apply IH. intros i Hi. apply H. lia. }
  rewrite (Hfind 0); [done|]. intros i Hi. apply H. lia.
Qed.

Lemma iloc_firstn (df : table) (w i : nat) :
  i < w -> iloc (firstn w df) i = iloc df i.
Proof.
  unfold iloc. revert w i. induction df as [|r df IH]; intros w i Hi.
  - by rewrite firstn_nil.
  - destruct w as [|w]; [lia|]. destruct i as [|i]; simpl; [done|].
    apply IH. lia.
Qed.

(** Inside the window, the test of the extact2 scripts is the
    specification's. *)
Lemma is_header_row_qualifies (df : table) (i : nat) :
  let w := Nat.min 10 (length df) in
  i < w - 1 -> is_header_row (firstn w df) i = qualifies is_str df i.
Proof.
  intros w Hi. unfold is_header_row, qualifies, string_majority, has_data.
  rewrite length_firstn. fold w.
  assert (Nat.min w (length df) = w) as -> by (unfold w; lia).
  destruct (Nat.leb_spec (w - 1) i) as [|_]; [lia|].
  rewrite !iloc_firstn by lia.
  by destruct (length (dropna (iloc df i)) =? 0).
Qed.

Lemma string_like_dropna (r : row) :
  List.filter string_like (dropna r) = List.filter string_like r.
Proof.
  unfold dropna. induction r as [|c r IH]; simpl; [done|].
  destruct c; simpl; rewrite ?IH; done.
Qed.

(** The test of extract1 is the specification's, with its wider notion of
    a string cell. *)
Lemma is_header_row_v1_qualifies (df : table) (i : nat) :
  i < length df - 1 -> is_header_row_v1 df i = qualifies string_like df i.
Proof.
  intros Hi. unfold is_header_row_v1, qualifies, string_majority, has_data.
  destruct (Nat.leb_spec (length df - 1) i) as [|_]; [lia|].
  rewrite string_like_dropna.
  by destruct (length (dropna (iloc df i)) =? 0).
Qed.

Lemma first_qualifying_of_index (is_string : cell -> bool) (df : table)
    (p : nat -> bool) (n : nat) :
  (forall i, i < n -> p i = qualifies is_string df i) ->
  first_qualifying is_string df n (first_index p n 0).
Proof.
  intros Hp. rewrite (first_index_ext p (qualifies is_string df) n 0 Hp).
  apply first_index_spec.
Qed.

(** C6, as amended: the extact2 scripts return the first qualifying row
    among rows [0 .. min(10, row_count) - 2], and 0 when there is none;
    extract1 does the same with its wider notion of a string cell, over
    the candidates [0 .. min(10, row_count - 1) - 1], which include row 9
    of a table of more than ten rows. *)
Theorem header_locator_first_qualifying (df : table) :
  first_qualifying is_str df (Nat.min 10 (length df) - 1) (find_header_row df)
  /\ first_qualifying string_like df (Nat.min 10 (length df - 1))
       (find_header_row_v1 df).
Proof.
  split.
  - unfold find_header_row. apply first_qualifying_of_index.
    intros i Hi. by apply is_header_row_qualifies.
  - unfold find_header_row_v1. apply first_qualifying_of_index.
    intros i Hi. apply is_header_row_v1_qualifies. lia.
Qed.

(** C6, as stated, fails for extract1: in [late_header] no row among the
    first nine qualifies, yet row 9, the last row of the ten-row window,
    is returned. *)
Lemma header_locator_window_last_row :
  find_header_row_v1 late_header = 9
  /\ forallb (fun i => negb (qualifies string_like late_header i)) (seq 0 9) = true
  /\ find_header_row late_header = 0.
Proof. by vm_compute. Qed.

End Locator_facts.

(* ===================================================================== *)
(** * The column classifier *)
(* ===================================================================== *)

Module Classifier_facts.
Import Inputs.

(** C9, as amended: [should_skip_column] answers [False] for a missing and
    for an empty column name; a name that is not blank is skipped when it
    contains a skip keyword, case ignored, and, in the harvesting script,
    also when it has no CJK character. *)
Theorem should_skip_column_blank_is_false
    (keywords : list str) (lower : str -> str) (name : str) :
  Harvest.should_skip_column keywords lower None = false
  /\ Harvest.should_skip_column keywords lower (Some []) = false
  /\ Split.should_skip_column lower keywords None = false
  /\ Split.should_skip_column lower keywords (Some []) = false
  /\ Harvest.should_skip_column keywords lower (Some name) =
       negb (str_eqb name [])
       && (existsb (fun keyword => py_in (lower keyword) (lower name)) keywords
           || negb (Harvest.contains_chinese name))
  /\ Split.should_skip_column lower keywords (Some name) =
       negb (str_eqb name [])
       && existsb (fun keyword => py_in (lower keyword) (lower name)) keywords.
Proof.
  repeat split; try reflexivity.
  - unfold Harvest.should_skip_column.
    destruct (str_eqb name []); simpl; [done|].
    destruct (existsb _ keywords); simpl; [done|].
    by destruct (Harvest.contains_chinese name).
  - unfold Split.should_skip_column. by destruct (str_eqb name []).
Qed.

(** C9, as stated, fails: with the skip keywords of [main], a blank name
    is not skipped by either script. *)
Lemma should_skip_column_blank_not_skipped :
  Harvest.should_skip_column skip_keywords Ascii_runtime.lower (Some []) = false
  /\ Harvest.should_skip_column skip_keywords Ascii_runtime.lower None = false
  /\ Split.should_skip_column Ascii_runtime.lower skip_keywords (Some []) = false
  /\ Split.should_skip_column Ascii_runtime.lower skip_keywords None = false.
Proof. by vm_compute. Qed.

End Classifier_facts.

(* ===================================================================== *)
(** * Tokenizing a description *)
(* ===================================================================== *)

Module Tokenizer_facts.
Import Split.

(** C2, as amended: the comma split is used when the text has more commas
    than semicolons; otherwise, and so on equal counts, the semicolon
    split is used. *)
Theorem choose_split_by_separator_count (value : str) :
  choose_split value =
    (if occurrences semicolon value <? occurrences comma value
     then py_split comma value
     else py_split semicolon value)
  /\ length (py_split comma value) <= length (choose_split value)
  /\ length (py_split semicolon value) <= length (choose_split value).
Proof.
  unfold choose_split. rewrite !py_split_length.
  change (S (occurrences semicolon value) <? S (occurrences comma value))
    with (occurrences semicolon value <? occurrences comma value).
  destruct (Nat.ltb_spec (occurrences semicolon value) (occurrences comma value));
    rewrite !py_split_length; repeat split; lia.
Qed.

(** C2, as stated, fails: ["a,b;c"] has two pieces either way, and the
    semicolon split is the one kept. *)
Lemma choose_split_tie_takes_semicolon :
  length (py_split comma (lit "a,b;c")) = length (py_split semicolon (lit "a,b;c"))
  /\ choose_split (lit "a,b;c") = [lit "a,b"; lit "c"]
  /\ py_split comma (lit "a,b;c") = [lit "a"; lit "b;c"]
  /\ tokens (lit "a,b;c") = [lit "a,b"; lit "c"].
Proof. by vm_compute. Qed.

End Tokenizer_facts.

(* ===================================================================== *)
(** * Merging into the knowledge base *)
(* ===================================================================== *)

Module Harvest_facts.
Import Frame Harvest Knowledge_order Inputs.

Lemma covers_refl (a : knowledge) : covers a a.
Proof. intros k S H. by exists S. Qed.

Lemma covers_trans (a b c : knowledge) : covers a b -> covers b c -> covers a c.
Proof.
  intros Hab Hbc k S H.
  destruct (Hab k S H) as (S1 & H1 & Hs1).
  destruct (Hbc k S1 H1) as (S2 & H2 & Hs2).
  exists S2. split; [done|]. set_solver.
Qed.

Lemma absorbing_id : absorbing (fun kb => kb).
Proof.
  split; [apply covers_refl|done].
Qed.

Lemma absorbing_compose (f g : knowledge -> knowledge) :
  absorbing f -> absorbing g -> absorbing (fun kb => g (f kb)).
Proof.
  intros [Hf1 Hf2] [Hg1 Hg2]. split.
  - intros kb. eapply covers_trans; [apply Hf1|apply Hg1].
  - intros kb kb' H.
    rewrite (Hf2 kb kb'); [by apply (Hg2 (f kb))|].
    eapply covers_trans; [apply Hg1|done].
Qed.

Lemma absorbing_idempotent (f : knowledge -> knowledge) (kb : knowledge) :
  absorbing f -> f (f kb) = f kb.
Proof. intros [_ H]. apply (H kb). apply covers_refl. Qed.

Lemma absorbing_fold {A} (step : knowledge -> A -> knowledge) (l : list A) :
  (forall x, absorbing (fun kb => step kb x)) ->
  absorbing (fun kb => fold_left step l kb).
Proof.
  intros Hstep. induction l as [|x l IH]; simpl; [apply absorbing_id|].
  apply (absorbing_compose (fun kb => step kb x) (fun kb => fold_left step l kb));
    [apply Hstep|apply IH].
Qed.

Lemma merge_column_unfold (col_name : str) (processed : gset str)
    (all_data : knowledge) :
  merge_column col_name processed all_data =
    <[col_name := stored all_data col_name ∪ additions col_name processed all_data]>
      all_data.
Proof. done. Qed.

Lemma merge_column_lookup (col_name : str) (processed : gset str)
    (all_data : knowledge) :
  merge_column col_name processed all_data !! col_name =
    Some (stored all_data col_name ∪ additions col_name processed all_data).
Proof. rewrite merge_column_unfold. apply lookup_insert_eq. Qed.

Lemma merge_column_lookup_ne (col_name k : str) (processed : gset str)
    (all_data : knowledge) :
  col_name <> k ->
  merge_column col_name processed all_data !! k = all_data !! k.
Proof. intros H. rewrite merge_column_unfold. by apply lookup_insert_ne. Qed.

Lemma subsumed_self (S : gset str) (v : str) : v ∈ S -> subsumed S v.
Proof. intros H. exists v. split; [done|apply py_in_refl]. Qed.

Lemma subsumed_mono (S S' : gset str) (v : str) :
  S ⊆ S' -> subsumed S v -> subsumed S' v.
Proof. intros Hs (e & He & Hin). exists e. split; [set_solver|done]. Qed.

(** Once the additions of a merge are stored, the same merge adds nothing. *)
Lemma additions_absorbed (col_name : str) (processed : gset str)
    (kb kb' : knowledge) :
  stored kb col_name ∪ additions col_name processed kb ⊆ stored kb' col_name ->
  additions col_name processed kb' ⊆ stored kb' col_name.
Proof.
  unfold additions. intros Hsub. destruct (decide (col_name = STANDARD)) as [->|Hne].
  - intros v [Hnot Hv]%elem_of_filter. exfalso. apply Hnot.
    destruct (decide (subsumed (stored kb STANDARD) v)) as [Hs|Hs].
    + eapply subsumed_mono; [|exact Hs].
      etrans; [apply union_subseteq_l|exact Hsub].
    + apply subsumed_self. apply Hsub. apply elem_of_union_r.
      by apply elem_of_filter.
  - set_solver.
Qed.

Lemma merge_column_absorbing (col_name : str) (processed : gset str) :
  absorbing (merge_column col_name processed).
Proof.
  split.
  - intros kb k S Hk. destruct (decide (col_name = k)) as [<-|Hne].
    + rewrite merge_column_lookup. eexists. split; [done|].
      unfold stored. rewrite Hk. simpl. apply union_subseteq_l.
    + rewrite merge_column_lookup_ne by done. by exists S.
  - intros kb kb' Hc.
    destruct (Hc col_name _ (merge_column_lookup col_name processed kb))
      as (S' & HS' & Hsub).
    rewrite merge_column_unfold.
    assert (stored kb' col_name = S') as Hst by (unfold stored; by rewrite HS').
    apply insert_id. rewrite HS'. f_equal.
    pose proof (additions_absorbed col_name processed kb kb') as Ha.
    rewrite Hst in *. symmetry. rewrite (comm_L (∪)).
    by apply subseteq_union_1_L, Ha.
Qed.

Section Extractor_facts.
Variable keywords : list str.
Variable white_list_keywords : list str.
Variable lower : str -> str.
Variable float_ok : str -> bool.
Variable int_ok : str -> bool.

Lemma harvest_column_absorbing (data_df : table) (entry : nat * str) :
  absorbing (fun kb =>
    harvest_column keywords white_list_keywords lower float_ok int_ok
      data_df kb entry).
Proof.
  destruct entry as [col_idx col_name]. unfold harvest_column.
  destruct (width data_df <=? col_idx); [apply absorbing_id|].
  destruct (should_skip_column _ _ _); [apply absorbing_id|].
  destruct (negb _); [apply absorbing_id|].
  apply merge_column_absorbing.
Qed.

Lemma harvest_columns_absorbing (column_names : list str) (data_df : table) :
  absorbing
    (harvest_columns keywords white_list_keywords lower float_ok int_ok
       column_names data_df).
Proof.
  unfold harvest_columns.
  apply (absorbing_fold
           (harvest_column keywords white_list_keywords lower float_ok int_ok
              data_df)).
  intros x. apply harvest_column_absorbing.
Qed.

Lemma sheets_loop_absorbing (first : sheet) (sheets : list sheet) :
  absorbing
    (sheets_loop keywords white_list_keywords lower float_ok int_ok first sheets).
Proof.
  induction sheets as [|s rest IH]; simpl; [apply absorbing_id|].
  destruct s as [|df]; [apply absorbing_id|].
  destruct (empty df); [apply absorbing_id|].
  destruct (length df <=? _); [apply absorbing_id|].
  destruct (read_skiprows first _) as [|data_df]; [apply absorbing_id|].
  apply (absorbing_compose
           (harvest_columns keywords white_list_keywords lower float_ok int_ok
              _ data_df)
           (sheets_loop keywords white_list_keywords lower float_ok int_ok
              first rest));
    [apply harvest_columns_absorbing|apply IH].
Qed.

Lemma process_excel_file_absorbing (workbook : list sheet) :
  absorbing
    (process_excel_file keywords white_list_keywords lower float_ok int_ok
       workbook).
Proof.
  destruct workbook as [|first rest]; [apply absorbing_id|].
  apply sheets_loop_absorbing.
Qed.

(** Harvesting a workbook a second time changes nothing, whatever the
    knowledge base held before the first time. *)
Lemma process_excel_file_idempotent (workbook : list sheet) (kb : knowledge) :
  let harvest :=
    process_excel_file keywords white_list_keywords lower float_ok int_ok
      workbook in
  harvest (harvest kb) = harvest kb.
Proof. apply absorbing_idempotent, process_excel_file_absorbing. Qed.

(** Harvesting a workbook only adds to the knowledge base: every column
    stays, with at least the values it had. *)
Theorem harvest_only_grows (workbook : list sheet) (kb : knowledge) :
  covers kb
    (process_excel_file keywords white_list_keywords lower float_ok int_ok
       workbook kb).
Proof. apply (proj1 (process_excel_file_absorbing workbook)). Qed.

(** C7: harvesting a workbook twice into an empty knowledge base leaves the
    knowledge base, and so the sorted value lists written at the end, as
    harvesting it once does. *)
Theorem harvest_twice_same_as_once (workbook : list sheet) :
  let harvest :=
    process_excel_file keywords white_list_keywords lower float_ok int_ok
      workbook in
  harvest (harvest ∅) = harvest ∅
  /\ finalize (harvest (harvest ∅)) = finalize (harvest ∅).
Proof.
  intros harvest. assert (harvest (harvest ∅) = harvest ∅) as H
    by apply process_excel_file_idempotent.
  by rewrite H.
Qed.

End Extractor_facts.

Lemma additions_standard_subsumed (kb : knowledge) (P : gset str) (v : str) :
  subsumed (stored kb STANDARD) v ->
  additions STANDARD P kb = additions STANDARD (P ∖ {[v]}) kb.
Proof.
  intros Hs. unfold additions. rewrite decide_True by done.
  apply set_eq. intros x. rewrite !elem_of_filter. set_unfold.
  split; [|tauto]. intros [Hx Hin]. repeat split; [done..|].
  intros ->. by apply Hx.
Qed.

Lemma additions_other (col_name : str) (P : gset str) (kb : knowledge) :
  col_name <> STANDARD -> additions col_name P kb = P.
Proof. intros H. unfold additions. by rewrite decide_False. Qed.

Lemma merge_column_nothing (col_name : str) (kb : knowledge) (S : gset str) :
  kb !! col_name = Some S -> merge_column col_name ∅ kb = kb.
Proof.
  intros H. rewrite merge_column_unfold. apply insert_id. rewrite H. f_equal.
  unfold stored, additions. rewrite H. simpl.
  apply set_eq. intros x. rewrite elem_of_union.
  split; [by left|]. intros [Hx|Hx]; [done|].
  destruct (decide (col_name = STANDARD)).
  - apply elem_of_filter in Hx as [_ Hx]. by apply not_elem_of_empty in Hx.
  - by apply not_elem_of_empty in Hx.
Qed.

(** C4: when a value already stored for "标准" is a substring of [v], a
    merge into "标准" treats a batch as if [v] were not in it, and merging
    [v] alone leaves the knowledge base as it was; so "ASTM A312" is not
    added to a category holding "A312".  For any other column every value
    of the batch is added. *)
Theorem standard_subsumption_discards
    (kb : knowledge) (S P : gset str) (e v col : str) :
  kb !! STANDARD = Some S -> e ∈ S -> py_in e v = true -> col <> STANDARD ->
  merge_column STANDARD P kb = merge_column STANDARD (P ∖ {[v]}) kb
  /\ merge_column STANDARD {[v]} kb = kb
  /\ merge_column STANDARD {[astm_a312]} {[STANDARD := {[a312]}]}
      = {[STANDARD := {[a312]}]}
  /\ merge_column col P kb !! col = Some (stored kb col ∪ P).
Proof.
  intros Hkb He Hin Hcol.
  assert (forall (kb0 : knowledge) (S0 P0 : gset str) (e0 v0 : str),
            kb0 !! STANDARD = Some S0 -> e0 ∈ S0 -> py_in e0 v0 = true ->
            merge_column STANDARD P0 kb0 = merge_column STANDARD (P0 ∖ {[v0]}) kb0)
    as Hdrop.
  { intros kb0 S0 P0 e0 v0 Hk0 He0 Hin0. rewrite !merge_column_unfold.
    rewrite (additions_standard_subsumed kb0 P0 v0); [done|].
    exists e0. split; [|done]. unfold stored. by rewrite Hk0. }
  assert (forall (kb0 : knowledge) (S0 : gset str) (e0 v0 : str),
            kb0 !! STANDARD = Some S0 -> e0 ∈ S0 -> py_in e0 v0 = true ->
            merge_column STANDARD {[v0]} kb0 = kb0) as Hone.
  { intros kb0 S0 e0 v0 Hk0 He0 Hin0.
    rewrite (Hdrop kb0 S0 {[v0]} e0 v0) by done.
    rewrite difference_diag_L.
    by apply (merge_column_nothing STANDARD kb0 S0). }
  split; [|split; [|split]].
  - by apply (Hdrop kb S P e v).
  - by apply (Hone kb S e v).
  - apply (Hone _ {[a312]} a312 astm_a312);
      [apply lookup_singleton_eq|set_solver|by vm_compute].
  - rewrite merge_column_lookup. by rewrite additions_other.
Qed.

Lemma standard_subsumption_discards_witness :
  ({[STANDARD := {[a312]}]} : knowledge) !! STANDARD = Some {[a312]}
  /\ a312 ∈ ({[a312]} : gset str)
  /\ py_in a312 astm_a312 = true
  /\ MATERIAL <> STANDARD
  /\ merge_column STANDARD {[astm_a312]} {[STANDARD := {[a312]}]}
      = {[STANDARD := {[a312]}]}
  /\ merge_column MATERIAL {[ss316]} {[STANDARD := {[a312]}]} !! MATERIAL
      = Some (stored {[STANDARD := {[a312]}]} MATERIAL ∪ {[ss316]}).
Proof.
  assert (({[STANDARD := {[a312]}]} : knowledge) !! STANDARD = Some {[a312]})
    as H1 by apply lookup_singleton_eq.
  assert (a312 ∈ ({[a312]} : gset str)) as H2 by (by apply elem_of_singleton).
  assert (py_in a312 astm_a312 = true) as H3 by (by vm_compute).
  assert (MATERIAL <> STANDARD) as H4 by discriminate.
  destruct (standard_subsumption_discards _ _ {[ss316]} _ _ _ H1 H2 H3 H4)
    as (_ & _ & H5 & H6).
  repeat split; assumption.
Defined.

(** C5, as amended: a value that a merge adds to "标准" comes from the
    batch and has no value stored before that merge as a substring.  (The
    values of one batch are not compared with each other, and a stored
    value stays when a new value is a substring of it.) *)
Theorem standard_merge_adds_unsubsumed
    (kb : knowledge) (P : gset str) (v e : str) :
  v ∈ stored (merge_column STANDARD P kb) STANDARD ->
  v ∉ stored kb STANDARD ->
  e ∈ stored kb STANDARD ->
  v ∈ P /\ py_in e v = false.
Proof.
  unfold stored at 1. rewrite merge_column_lookup. simpl.
  unfold additions. rewrite decide_True by done.
  intros [Hold|[Hnot Hv]%elem_of_filter]%elem_of_union Hnew He; [done|].
  split; [done|]. destruct (py_in e v) eqn:E; [|done].
  exfalso. apply Hnot. by exists e.
Qed.

Lemma standard_merge_adds_unsubsumed_witness :
  a106 ∈ stored (merge_column STANDARD {[a106]} {[STANDARD := {[a312]}]}) STANDARD
  /\ (a106 ∉ stored {[STANDARD := {[a312]}]} STANDARD)
  /\ a312 ∈ stored {[STANDARD := {[a312]}]} STANDARD
  /\ (a106 ∈ ({[a106]} : gset str)) /\ py_in a312 a106 = false.
Proof.
  assert (a106 ∈ stored (merge_column STANDARD {[a106]} {[STANDARD := {[a312]}]})
            STANDARD) as H1.
  { apply (bool_decide_unpack _). by vm_compute. }
  assert (a106 ∉ stored {[STANDARD := {[a312]}]} STANDARD) as H2.
  { apply (bool_decide_unpack _). by vm_compute. }
  assert (a312 ∈ stored {[STANDARD := {[a312]}]} STANDARD) as H3.
  { apply (bool_decide_unpack _). by vm_compute. }
  destruct (standard_merge_adds_unsubsumed _ _ _ _ H1 H2 H3) as [H4 H5].
  repeat split; assumption.
Defined.

(** C5, as stated, fails: harvested from one sheet into an empty knowledge
    base, "A312" and "ASTM A312" are both kept under "标准", the first a
    strict substring of the second. *)
Lemma standard_batch_keeps_substring :
  harvest_main [Sheet standard_sheet] ∅ !! STANDARD = Some {[a312; astm_a312]}
  /\ py_in a312 astm_a312 = true
  /\ a312 <> astm_a312.
Proof. vm_compute. repeat split; [reflexivity..|discriminate]. Qed.

(** C3 on concrete workbooks: the values harvested under the header of the
    second sheet are those of the first sheet's rows, and a first sheet
    that is empty or unreadable ends the whole file; harvested alone, the
    second sheet gives its own value. *)
Lemma later_sheets_read_first_sheet :
  harvest_main two_sheets ∅ = {[STANDARD := {[a312]}; MATERIAL := {[a312]}]}
  /\ harvest_main empty_then_material ∅ = ∅
  /\ harvest_main unreadable_then_material ∅ = ∅
  /\ harvest_main [Sheet material_sheet] ∅ = {[MATERIAL := {[ss316]}]}.
Proof. vm_compute. repeat split; reflexivity. Qed.

End Harvest_facts.

(* ===================================================================== *)
(** * Decomposing a description *)
(* ===================================================================== *)

Module Decomposer_facts.
Import Split Decomposer_spec Inputs.

Lemma dict_get_set_eq {V} (d : dict V) (k : str) (v : V) :
  dict_get (dict_set d k v) k = Some v.
Proof.
  induction d as [|[k0 v0] d IH]; simpl.
  - by rewrite str_eqb_refl.
  - destruct (str_eqb k0 k) eqn:E; simpl; rewrite E; done.
Qed.

Lemma dict_get_set_ne {V} (d : dict V) (k k' : str) (v : V) :
  k <> k' -> dict_get (dict_set d k v) k' = dict_get d k'.
Proof.
  intros Hne. induction d as [|[k0 v0] d IH]; simpl.
  - by rewrite (proj2 (str_eqb_false k k')).
  - destruct (str_eqb k0 k) eqn:E; simpl.
    + apply str_eqb_true in E as ->.
      by rewrite (proj2 (str_eqb_false k k')).
    + destruct (str_eqb k0 k'); [done|apply IH].
Qed.

Lemma dict_get_set_some {V} (d : dict V) (k k' : str) (v : V) :
  is_Some (dict_get d k') -> is_Some (dict_get (dict_set d k v) k').
Proof.
  intros H. destruct (decide (k = k')) as [->|Hne].
  - rewrite dict_get_set_eq. by eexists.
  - by rewrite dict_get_set_ne.
Qed.

Section Scoring.
Variable scorer : str -> str -> Q.

Lemma Qle_bool_cases (a b : Q) :
  (Qle_bool a b = true /\ (a <= b)%Q) \/ (Qle_bool a b = false /\ (b < a)%Q).
Proof.
  destruct (Qle_bool a b) eqn:E.
  - left. split; [done|]. by apply Qle_bool_iff.
  - right. split; [done|]. apply Qnot_le_lt. intros H%Qle_bool_iff. congruence.
Qed.

(** Rounding does not go below the integer at or under the score. *)
Lemma py_round_floor (score : Q) : (Qfloor score <= py_round score)%Z.
Proof.
  unfold py_round. destruct (Qcompare _ _); [|lia..].
  destruct (Z.even (Qfloor score)); lia.
Qed.

Lemma py_round_ceil (score : Q) : (py_round score <= Qfloor score + 1)%Z.
Proof.
  unfold py_round. destruct (Qcompare _ _); [|lia..].
  destruct (Z.even (Qfloor score)); lia.
Qed.

(** Rounding keeps the order of the scores. *)
Lemma py_round_mono (a b : Q) : (a <= b)%Q -> (py_round a <= py_round b)%Z.
Proof.
  intros Hab. pose proof (Qfloor_resp_le _ _ Hab) as Hf.
  destruct (Z.eq_dec (Qfloor a) (Qfloor b)) as [E|Hne].
  - unfold py_round. rewrite <- E.
    destruct (Qcompare (2 * (a - inject_Z (Qfloor a))) 1) eqn:Ea;
      [apply Qeq_alt in Ea|apply Qlt_alt in Ea|apply Qgt_alt in Ea];
      (destruct (Qcompare (2 * (b - inject_Z (Qfloor a))) 1) eqn:Eb;
       [apply Qeq_alt in Eb|apply Qlt_alt in Eb|apply Qgt_alt in Eb]);
      try (destruct (Z.even (Qfloor a))); try lia; exfalso; lra.
  - pose proof (py_round_ceil a). pose proof (py_round_floor b). lia.
Qed.

Lemma py_round_cutoff (score : Q) :
  (inject_Z score_cutoff <= score)%Q -> (score_cutoff <= py_round score)%Z.
Proof.
  intros H%Qfloor_resp_le. rewrite Qfloor_Z in H.
  pose proof (py_round_floor score). lia.
Qed.

Lemma better_best_of (query : str) (seen : list str) (best : list (str * Q))
    (choice : str) :
  best_of scorer query seen best ->
  best_of scorer query (seen ++ [choice]) (better scorer query best choice).
Proof.
  unfold better. intros [[-> Hall]|(v & -> & Hv & Hcut & Hmax)].
  - destruct (Qle_bool_cases (inject_Z score_cutoff) (scorer query choice))
      as [[-> Hc]|[-> Hc]]; simpl.
    + right. exists choice. split; [done|]. split; [apply in_or_app; right; by left|].
      split; [done|]. intros c [Hin|[<-|[]]]%in_app_or; [|apply Qle_refl].
      specialize (Hall c Hin). lra.
    + left. split; [done|]. intros c [Hin|[<-|[]]]%in_app_or; [by apply Hall|done].
  - destruct (Qle_bool_cases (inject_Z score_cutoff) (scorer query choice))
      as [[-> Hc]|[-> Hc]]; simpl.
    + destruct (Qle_bool_cases (scorer query choice) (scorer query v))
        as [[-> Hb]|[-> Hb]].
      * right. exists v. split; [done|]. split; [apply in_or_app; by left|].
        split; [done|]. intros c [Hin|[<-|[]]]%in_app_or; [by apply Hmax|done].
      * right. exists choice. split; [done|].
        split; [apply in_or_app; right; by left|]. split; [done|].
        intros c [Hin|[<-|[]]]%in_app_or; [|apply Qle_refl].
        specialize (Hmax c Hin). lra.
    + right. exists v. split; [done|]. split; [apply in_or_app; by left|].
      split; [done|]. intros c [Hin|[<-|[]]]%in_app_or; [by apply Hmax|lra].
Qed.

Lemma fold_better_best_of (query : str) (choices seen : list str)
    (best : list (str * Q)) :
  best_of scorer query seen best ->
  best_of scorer query (seen ++ choices) (fold_left (better scorer query) choices best).
Proof.
  revert seen best. induction choices as [|c choices IH]; intros seen best H; simpl.
  - by rewrite app_nil_r.
  - replace (seen ++ c :: choices) with ((seen ++ [c]) ++ choices)
      by (by rewrite <- app_assoc).
    apply IH. by apply better_best_of.
Qed.

(** [extractBests] is empty when no choice reaches the cut-off, and
    otherwise holds one choice, of the highest score, with that score
    rounded. *)
Lemma extractBests_best_of (query : str) (choices : list str) :
  exists best,
    best_of scorer query choices best
    /\ extractBests scorer query choices
       = List.map (fun found : str * Q => (found.1, py_round found.2)) best.
Proof.
  exists (fold_left (better scorer query) choices []). split; [|done].
  apply (fold_better_best_of query choices [] []). left. split; [done|]. intros c [].
Qed.

Lemma fuzzy_hit_false (query : str) (choices : list str) :
  fuzzy_hit scorer query choices = false <->
  forall c, In c choices -> (scorer query c < inject_Z score_cutoff)%Q.
Proof.
  unfold fuzzy_hit. induction choices as [|c choices IH]; simpl.
  - split; [intros _ c []|done].
  - rewrite orb_false_iff, IH. split.
    + intros [H1 H2] x [<-|Hx]; [|by apply H2].
      destruct (Qle_bool_cases (inject_Z score_cutoff) (scorer query c))
        as [[E _]|[_ H]]; [congruence|done].
    + intros H. split; [|intros x Hx; apply H; by right].
      destruct (Qle_bool_cases (inject_Z score_cutoff) (scorer query c))
        as [[_ Hc]|[E _]]; [|done].
      specialize (H c (or_introl eq_refl)). lra.
Qed.

(** The fuzzy step assigns the field exactly when a candidate reaches the
    cut-off; [best_match_score] plays no part. *)
Lemma fuzzy_step_spec (split_value map_col_name : str) (map_values : list str)
    (row_data : dict str) (is_match : bool) :
  fuzzy_step scorer split_value map_col_name map_values row_data is_match =
    if fuzzy_hit scorer split_value map_values
    then (if str_eqb map_col_name NAME
          then dict_set row_data map_col_name split_value
          else dict_set row_data map_col_name
                 (joined (dict_get row_data map_col_name) split_value),
          true)
    else (row_data, is_match).
Proof.
  unfold fuzzy_step.
  destruct (extractBests_best_of split_value map_values)
    as (best & [[-> Hall]|(v & -> & Hv & Hcut & Hmax)] & ->); simpl.
  - by rewrite (proj2 (fuzzy_hit_false split_value map_values) Hall).
  - destruct (fuzzy_hit scorer split_value map_values) eqn:E.
    + pose proof (py_round_cutoff _ Hcut) as Hr.
      unfold best_match_score, score_cutoff in *.
      destruct (Z.ltb_spec 0 (py_round (scorer split_value v))); [done|lia].
    + pose proof (proj1 (fuzzy_hit_false split_value map_values) E v Hv). lra.
Qed.

End Scoring.

Section Columns.
Variable lower : str -> str.
Variable float_ok : str -> bool.
Variable scorer : str -> str -> Q.

Lemma name_scan_spec (token : str) (values : list str) (row : dict str)
    (cur : str) :
  dict_get row NAME = Some cur ->
  exists row',
    name_scan lower token values row = Some row'
    /\ dict_get row' NAME
        = Some (fold_left pick (List.filter (accepts lower token) values) cur)
    /\ forall k, k <> NAME -> dict_get row' k = dict_get row k.
Proof.
  unfold name_scan. revert row cur.
  induction values as [|v values IH]; intros row cur Hcur; simpl.
  - by exists row.
  - unfold accepts at 1. destruct (py_in (lower v) (lower token)); simpl.
    + rewrite Hcur.
      destruct (IH (dict_set row NAME (pick cur v)) (pick cur v))
        as (row' & Hrow' & Hname & Hframe); [apply dict_get_set_eq|].
      exists row'. split; [exact Hrow'|]. split; [exact Hname|].
      intros k Hk. rewrite Hframe by done. by apply dict_get_set_ne.
    + by apply IH.
Qed.

(** One column for one token: the step returns, keeps the keys of the
    record, touches no other field than the column's own, raises the flag
    exactly on a hit, and leaves in "名称" the longest accepted candidate
    when the fuzzy step of that column does not fire. *)
Lemma column_step_spec (token : str) (row : dict str) (m : bool)
    (entry : str * list str) :
  (entry.1 = NAME -> is_Some (dict_get row NAME)) ->
  exists row',
    column_step lower scorer token (Some (row, m)) entry
      = Some (row', m || hit lower scorer token entry)
    /\ (forall k, is_Some (dict_get row k) -> is_Some (dict_get row' k))
    /\ (forall k, k <> entry.1 -> dict_get row' k = dict_get row k)
    /\ (entry.1 = NAME -> fuzzy_hit scorer token entry.2 = false ->
        forall cur, dict_get row NAME = Some cur ->
          dict_get row' NAME
          = Some (fold_left pick (List.filter (accepts lower token) entry.2) cur)).
Proof.
  destruct entry as [c vs]. simpl. intros Hname. unfold column_step, hit. simpl.
  destruct (str_eqb c NAME) eqn:En.
  - apply str_eqb_true in En as ->.
    destruct (Hname eq_refl) as [cur Hcur].
    destruct (name_scan_spec token vs row cur Hcur)
      as (row1 & -> & Hn1 & Hframe1).
    change (str_eqb NAME STANDARD || str_eqb NAME MATERIAL) with false.
    simpl. rewrite fuzzy_step_spec, str_eqb_refl.
    destruct (fuzzy_hit scorer token vs) eqn:Ef.
    + exists (dict_set row1 NAME token). rewrite orb_true_r.
      split; [done|]. split; [|split; [|done]].
      * intros k Hk. apply dict_get_set_some.
        destruct (decide (k = NAME)) as [->|Hne]; [by rewrite Hn1|].
        by rewrite Hframe1.
      * intros k Hk. rewrite dict_get_set_ne by done. by apply Hframe1.
    + exists row1. rewrite orb_false_r. split; [done|]. split; [|split].
      * intros k Hk. destruct (decide (k = NAME)) as [->|Hne]; [by rewrite Hn1|].
        by rewrite Hframe1.
      * exact Hframe1.
      * intros _ _ cur' Hcur'. rewrite Hcur in Hcur'. by injection Hcur' as <-.
  - apply str_eqb_false in En.
    destruct (str_eqb c STANDARD || str_eqb c MATERIAL) eqn:Es.
    + destruct (substring_hit lower token vs).
      * eexists. rewrite orb_true_r. split; [done|]. split; [|split; [|done]].
        -- intros k Hk. by apply dict_get_set_some.
        -- intros k Hk. by apply dict_get_set_ne.
      * exists row. by rewrite orb_false_r.
    + rewrite fuzzy_step_spec, (proj2 (str_eqb_false c NAME) En).
      destruct (fuzzy_hit scorer token vs).
      * eexists. rewrite orb_true_r. split; [done|]. split; [|split; [|done]].
        -- intros k Hk. by apply dict_get_set_some.
        -- intros k Hk. by apply dict_get_set_ne.
      * exists row. by rewrite orb_false_r.
Qed.


Lemma matched_cons (entry : str * list str) (kb : dict (list str)) (token : str) :
  matched lower scorer (entry :: kb) token
  = hit lower scorer token entry || matched lower scorer kb token.
Proof. done. Qed.

(** All the columns for one token. *)
Lemma columns_fold_spec (token : str) (kb : dict (list str)) (row : dict str)
    (m : bool) :
  (In NAME (List.map fst kb) -> is_Some (dict_get row NAME)) ->
  exists row',
    fold_left (column_step lower scorer token) kb (Some (row, m))
      = Some (row', m || matched lower scorer kb token)
    /\ (forall k, is_Some (dict_get row k) -> is_Some (dict_get row' k))
    /\ (forall k, ~ In k (List.map fst kb) -> dict_get row' k = dict_get row k)
    /\ ((forall entry, In entry kb -> entry.1 = NAME ->
           fuzzy_hit scorer token entry.2 = false) ->
        forall cur, dict_get row NAME = Some cur ->
          dict_get row' NAME
          = Some (fold_left pick (name_accepts lower kb token) cur)).
Proof.
  revert row m. induction kb as [|entry kb IH]; intros row m Hname.
  - exists row. simpl. by rewrite orb_false_r.
  - simpl fold_left.
    destruct (column_step_spec token row m entry)
      as (row1 & -> & Hkeys1 & Hframe1 & Hn1).
    { intros E. apply Hname. left. exact E. }
    destruct (IH row1 (m || hit lower scorer token entry)) as (row2 & -> & Hkeys2 & Hframe2 & Hn2).
    { intros Hin. destruct (decide (entry.1 = NAME)) as [E|E].
      - apply Hkeys1, Hname. by left.
      - rewrite Hframe1 by done. apply Hname. by right. }
    exists row2. rewrite matched_cons, orb_assoc. split; [done|].
    split; [|split].
    + intros k Hk. by apply Hkeys2, Hkeys1.
    + intros k Hk. rewrite Hframe2, Hframe1; [done| |]; intros E; apply Hk.
      * left. done.
      * right. done.
    + intros Hno cur Hcur. unfold name_accepts. simpl flat_map.
      rewrite fold_left_app. apply Hn2.
      * intros e He. apply Hno. by right.
      * destruct (str_eqb entry.1 NAME) eqn:E.
        -- apply str_eqb_true in E. apply Hn1; [done| |done].
           apply Hno; [by left|done].
        -- apply str_eqb_false in E. simpl. rewrite Hframe1; [done|].
           intros E'. by apply E.
Qed.

(** One token. *)
Lemma token_step_spec (kb : dict (list str)) (row : dict str) (token : str) :
  (In NAME (List.map fst kb) -> is_Some (dict_get row NAME)) ->
  exists row1,
    token_step lower float_ok scorer kb (Some row) token = Some row1
    /\ (forall k, is_Some (dict_get row k) -> is_Some (dict_get row1 k))
    /\ (~ In REMARK (List.map fst kb) ->
        dict_get row1 REMARK
        = if skipped float_ok token || matched lower scorer kb token
          then dict_get row REMARK
          else Some (joined (dict_get row REMARK) token))
    /\ ((forall entry, In entry kb -> entry.1 = NAME ->
           skipped float_ok token = false ->
           fuzzy_hit scorer token entry.2 = false) ->
        forall cur, dict_get row NAME = Some cur ->
          dict_get row1 NAME
          = Some (fold_left pick
                    (if skipped float_ok token then []
                     else name_accepts lower kb token) cur)).
Proof.
  intros Hname. unfold token_step.
  destruct (skipped float_ok token) eqn:Es.
  - exists row. by simpl.
  - destruct (columns_fold_spec token kb row false Hname)
      as (row' & -> & Hkeys & Hframe & Hn).
    simpl orb. destruct (matched lower scorer kb token).
    + exists row'. split; [done|]. split; [done|]. split; [apply Hframe|].
      intros Hno cur Hcur. apply Hn; [|done].
      intros e He E. by apply Hno.
    + eexists. split; [done|]. split; [|split].
      * intros k Hk. by apply dict_get_set_some, Hkeys.
      * intros Hr. rewrite dict_get_set_eq. by rewrite Hframe.
      * intros Hno cur Hcur. rewrite dict_get_set_ne by discriminate.
        apply Hn; [|done]. intros e He E. by apply Hno.
Qed.

End Columns.

Section Longest.






End Longest.

Section Records.
Variable lower : str -> str.
Variable float_ok : str -> bool.
Variable scorer : str -> str -> Q.

Lemma fold_keys_other (keys : list str) (d : dict str) (k : str) :
  ~ In k keys ->
  dict_get (fold_left (fun row_data key => dict_set row_data key []) keys d) k
  = dict_get d k.
Proof.
  revert d. induction keys as [|k0 keys IH]; intros d Hk; simpl; [done|].
  rewrite IH by (intros H; apply Hk; by right).
  apply dict_get_set_ne. intros ->. apply Hk. by left.
Qed.

Lemma fold_keys_blank (keys : list str) (d : dict str) (k : str) :
  In k keys ->
  dict_get (fold_left (fun row_data key => dict_set row_data key []) keys d) k
  = Some [].
Proof.
  revert d. induction keys as [|k0 keys IH]; intros d Hk; simpl; [done|].
  destruct (List.in_dec (fun a b : str => decide (a = b)) k keys) as [Hin|Hout];
    [by apply IH|].
  destruct Hk as [->|Hk]; [|done].
  rewrite fold_keys_other by done. apply dict_get_set_eq.
Qed.

(** Every column of the knowledge base starts as an empty field. *)
Lemma initial_row_blank (kb : dict (list str)) (value k : str) :
  In k (List.map fst kb) -> dict_get (initial_row kb value) k = Some [].
Proof.
  intros Hk. unfold initial_row.
  destruct (decide (REMARK = k)) as [<-|Hne]; [apply dict_get_set_eq|].
  rewrite dict_get_set_ne by done. by apply fold_keys_blank.
Qed.

(** All the tokens of a record. *)
Lemma tokens_fold_spec (kb : dict (list str)) (ts : list str) (row : dict str) :
  (In NAME (List.map fst kb) -> is_Some (dict_get row NAME)) ->
  exists row1,
    fold_left (token_step lower float_ok scorer kb) ts (Some row) = Some row1
    /\ (no_fuzzy_name_hit float_ok scorer kb ts ->
        forall cur, dict_get row NAME = Some cur ->
          dict_get row1 NAME
          = Some (fold_left pick (accepted lower float_ok kb ts) cur)).
Proof.
  revert row. induction ts as [|t ts IH]; intros row Hname.
  - exists row. by simpl.
  - cbn [fold_left].
    destruct (token_step_spec lower float_ok scorer kb row t Hname)
      as (row1 & -> & Hkeys & _ & Hn).
    destruct (IH row1) as (row2 & -> & Hn2).
    { intros Hin. by apply Hkeys, Hname. }
    exists row2. split; [done|]. intros Hno cur Hcur.
    unfold accepted. simpl flat_map. rewrite fold_left_app. apply Hn2.
    + intros token entry Ht. apply Hno. by right.
    + apply Hn; [|done]. intros entry He E Hs. apply (Hno t entry); [by left|done..].
Qed.

End Records.

(** The cut-off is taken on the score before it is rounded: a score of
    6600/83 is rounded to 80 and is no hit; the column stays empty and
    the token goes to "备注". *)
Lemma cutoff_precedes_rounding :
  Ascii_runtime.token_sort_ratio a_run a_run_b_run = (6600 # 83)%Q
  /\ py_round (Ascii_runtime.token_sort_ratio a_run a_run_b_run) = 80%Z
  /\ extractBests Ascii_runtime.token_sort_ratio a_run [a_run_b_run] = []
  /\ fuzzy_hit Ascii_runtime.token_sort_ratio a_run [a_run_b_run] = false
  /\ decompose_ascii [(SIZE, [a_run_b_run])] a_run
     = Some [(DESCRIPTION, a_run); (SIZE, []); (REMARK, a_run)].
Proof. by vm_compute. Qed.

(** A knowledge base with a column named "备注": a token with a fuzzy hit
    in that column is matched, and the column's own step joins it to the
    "备注" field. *)
Lemma remark_column_takes_its_hit :
  matched Ascii_runtime.lower Ascii_runtime.token_sort_ratio
    [(REMARK, [lit "abcd"])] (lit "abcd") = true
  /\ decompose_ascii [(REMARK, [lit "abcd"])] (lit "abcd")
     = Some [(DESCRIPTION, lit "abcd"); (REMARK, lit "abcd")].
Proof. by vm_compute. Qed.

(** C1, as amended: for a column other than "名称", "标准" and "材质", the
    step changes the record only if the best token-sort score between the
    token and the column's candidates is at least 80, before rounding and
    so after it as well; the token is then joined to the column's field
    and the token counts as matched. *)
Theorem generic_field_assigned_only_from_cutoff
    (lower : str -> str) (scorer : str -> str -> Q)
    (token col : str) (values : list str) (row row' : dict str) (m m' : bool) :
  col <> NAME -> col <> STANDARD -> col <> MATERIAL ->
  column_step lower scorer token (Some (row, m)) (col, values) = Some (row', m') ->
  row' <> row ->
  exists v,
    In v values
    /\ (forall c, In c values ->
          (scorer token c <= scorer token v)%Q
          /\ (py_round (scorer token c) <= py_round (scorer token v))%Z)
    /\ (80 <= scorer token v)%Q
    /\ (80 <= py_round (scorer token v))%Z
    /\ row' = dict_set row col (joined (dict_get row col) token)
    /\ m' = true.
Proof.
  intros Hn Hs Hm. unfold column_step.
  rewrite (proj2 (str_eqb_false col NAME) Hn),
    (proj2 (str_eqb_false col STANDARD) Hs),
    (proj2 (str_eqb_false col MATERIAL) Hm). simpl.
  unfold fuzzy_step. rewrite (proj2 (str_eqb_false col NAME) Hn).
  destruct (extractBests_best_of scorer token values)
    as (best & [[-> Hall]|(v & -> & Hv & Hcut & Hmax)] & ->); simpl.
  - intros [= <- <-] Hchg. done.
  - pose proof (py_round_cutoff _ Hcut) as Hr.
    unfold best_match_score, score_cutoff in *.
    destruct (Z.ltb_spec 0 (py_round (scorer token v))); [|lia].
    intros [= <- <-] _. exists v. split; [done|]. split; [|done].
    intros c Hc. split; [by apply Hmax|]. by apply py_round_mono, Hmax.
Qed.

Lemma generic_field_assigned_only_from_cutoff_witness :
  SIZE <> NAME /\ SIZE <> STANDARD /\ SIZE <> MATERIAL
  /\ column_step Ascii_runtime.lower Ascii_runtime.token_sort_ratio
       (lit "abcdef") (Some ([(SIZE, [])], false)) (SIZE, [lit "abcd"])
     = Some ([(SIZE, lit "abcdef")], true)
  /\ [(SIZE, lit "abcdef")] <> [(SIZE, [])]
  /\ exists v,
       In v [lit "abcd"]
       /\ (forall c, In c [lit "abcd"] ->
             (Ascii_runtime.token_sort_ratio (lit "abcdef") c
              <= Ascii_runtime.token_sort_ratio (lit "abcdef") v)%Q
             /\ (py_round (Ascii_runtime.token_sort_ratio (lit "abcdef") c)
                 <= py_round (Ascii_runtime.token_sort_ratio (lit "abcdef") v))%Z)
       /\ (80 <= Ascii_runtime.token_sort_ratio (lit "abcdef") v)%Q
       /\ (80 <= py_round (Ascii_runtime.token_sort_ratio (lit "abcdef") v))%Z
       /\ [(SIZE, lit "abcdef")]
          = dict_set [(SIZE, [])] SIZE (joined (dict_get [(SIZE, [])] SIZE) (lit "abcdef"))
       /\ true = true.
Proof.
  assert (SIZE <> NAME) as H1 by discriminate.
  assert (SIZE <> STANDARD) as H2 by discriminate.
  assert (SIZE <> MATERIAL) as H3 by discriminate.
  assert (column_step Ascii_runtime.lower Ascii_runtime.token_sort_ratio
            (lit "abcdef") (Some ([(SIZE, [])], false)) (SIZE, [lit "abcd"])
          = Some ([(SIZE, lit "abcdef")], true)) as H4 by (by vm_compute).
  assert ([(SIZE, lit "abcdef")] <> [(SIZE, [] : str)]) as H5 by discriminate.
  pose proof (generic_field_assigned_only_from_cutoff _ _ _ _ _ _ _ _ _
                H1 H2 H3 H4 H5) as H6.
  repeat split; assumption.
Defined.

(** C1, as stated, fails: a best score of exactly 80 assigns the field,
    and two columns that both hold the token are both assigned, the second
    although its score does not exceed the first's. *)
Lemma generic_cutoff_is_inclusive :
  Ascii_runtime.token_sort_ratio (lit "abcdef") (lit "abcd") = 80%Q
  /\ py_round (Ascii_runtime.token_sort_ratio (lit "abcdef") (lit "abcd")) = 80%Z
  /\ decompose_ascii [(SIZE, [lit "abcd"])] (lit "abcdef")
     = Some [(DESCRIPTION, lit "abcdef"); (SIZE, lit "abcdef"); (REMARK, [])]
  /\ decompose_ascii [(PRESSURE, [lit "150LB"]); (SIZE, [lit "150LB"])]
       (lit "150LB")
     = Some [(DESCRIPTION, lit "150LB"); (PRESSURE, lit "150LB");
             (SIZE, lit "150LB"); (REMARK, [])].
Proof. by vm_compute. Qed.

(** C8, as amended: when the knowledge base has no column named "备注",
    and the record has a "名称" field if the knowledge base has that
    column, a token that is not skipped is joined to "备注" exactly when it
    has neither a substring hit in "标准" or "材质" nor a fuzzy hit (a
    score of at least 80 before rounding) in another column; being
    accepted by the substring rule of "名称" has no part in it, and against
    a knowledge base with the "名称" column alone only the fuzzy score of
    that column decides. *)
Theorem remainder_unless_matched
    (lower : str -> str) (float_ok : str -> bool) (scorer : str -> str -> Q)
    (kb : dict (list str)) (row : dict str) (token : str) :
  skipped float_ok token = false ->
  (In NAME (List.map fst kb) -> is_Some (dict_get row NAME)) ->
  ~ In REMARK (List.map fst kb) ->
  exists row1,
    token_step lower float_ok scorer kb (Some row) token = Some row1
    /\ dict_get row1 REMARK
       = (if matched lower scorer kb token
          then dict_get row REMARK
          else Some (joined (dict_get row REMARK) token))
    /\ forall candidates,
         matched lower scorer [(NAME, candidates)] token
         = fuzzy_hit scorer token candidates.
Proof.
  intros Hs Hname Hr.
  destruct (token_step_spec lower float_ok scorer kb row token Hname)
    as (row1 & Hrow1 & _ & Hrem & _).
  exists row1. split; [done|]. split.
  - rewrite (Hrem Hr), Hs. done.
  - intros candidates. unfold matched. simpl.
    change (str_eqb NAME STANDARD || str_eqb NAME MATERIAL) with false.
    simpl. by rewrite orb_false_r.
Qed.

Lemma remainder_unless_matched_witness :
  skipped Ascii_runtime.float_ok seamless_pipe = false
  /\ token_step Ascii_runtime.lower Ascii_runtime.float_ok
       Ascii_runtime.token_sort_ratio names_kb
       (Some (initial_row names_kb seamless_pipe)) seamless_pipe
     = Some [(DESCRIPTION, seamless_pipe); (NAME, stainless_steel);
             (REMARK, seamless_pipe)]
  /\ matched Ascii_runtime.lower Ascii_runtime.token_sort_ratio names_kb
       seamless_pipe = false
  /\ exists row1,
       token_step Ascii_runtime.lower Ascii_runtime.float_ok
         Ascii_runtime.token_sort_ratio names_kb
         (Some (initial_row names_kb seamless_pipe)) seamless_pipe = Some row1
       /\ dict_get row1 REMARK
          = (if matched Ascii_runtime.lower Ascii_runtime.token_sort_ratio
                  names_kb seamless_pipe
             then dict_get (initial_row names_kb seamless_pipe) REMARK
             else Some (joined (dict_get (initial_row names_kb seamless_pipe) REMARK)
                          seamless_pipe))
       /\ forall candidates,
            matched Ascii_runtime.lower Ascii_runtime.token_sort_ratio
              [(NAME, candidates)] seamless_pipe
            = fuzzy_hit Ascii_runtime.token_sort_ratio seamless_pipe candidates.
Proof.
  assert (skipped Ascii_runtime.float_ok seamless_pipe = false) as H1
    by (by vm_compute).
  assert (In NAME (List.map fst names_kb) ->
          is_Some (dict_get (initial_row names_kb seamless_pipe) NAME)) as H2.
  { intros _. exists []. by vm_compute. }
  assert (~ In REMARK (List.map fst names_kb)) as H3.
  { simpl. intros [H|[]]. discriminate H. }
  pose proof (remainder_unless_matched Ascii_runtime.lower
                Ascii_runtime.float_ok Ascii_runtime.token_sort_ratio
                names_kb (initial_row names_kb seamless_pipe) seamless_pipe
                H1 H2 H3) as H4.
  split; [exact H1|]. split; [by vm_compute|]. split; [by vm_compute|exact H4].
Defined.

(** C8, as stated, fails: the token is accepted by the substring rule of
    "名称", which takes "Stainless Steel" from it, and the whole token is
    joined to "备注" all the same. *)
Lemma name_accepted_token_in_remainder :
  accepts Ascii_runtime.lower seamless_pipe stainless_steel = true
  /\ decompose_ascii names_kb seamless_pipe
     = Some [(DESCRIPTION, seamless_pipe); (NAME, stainless_steel);
             (REMARK, seamless_pipe)].
Proof. by vm_compute. Qed.




End Decomposer_facts.

(* ===================================================================== *)
(** * Stripping and printing *)
(* ===================================================================== *)

Module Strip_facts.

Lemma lstrip_head (s : str) (c : N) (r : str) :
  lstrip s = c :: r -> is_space c = false.
Proof.
  induction s as [|x s IH]; simpl; [done|].
  destruct (is_space x) eqn:E; [done|]. by intros [= <- _].
Qed.

Lemma lstrip_fixed (c : N) (r : str) :
  is_space c = false -> lstrip (c :: r) = c :: r.
Proof. intros H. simpl. by rewrite H. Qed.

Lemma lstrip_idem (s : str) : lstrip (lstrip s) = lstrip s.
Proof.
  destruct (lstrip s) as [|c r] eqn:E; [done|].
  apply lstrip_fixed. by apply (lstrip_head s c r).
Qed.

(** What [lstrip] removes is white space. *)
Lemma lstrip_split (s : str) :
  exists p, s = p ++ lstrip s /\ forallb is_space p = true.
Proof.
  induction s as [|x s (p & Hp & Hsp)]; simpl; [by exists []|].
  destruct (is_space x) eqn:E.
  - exists (x :: p). simpl. rewrite E, Hsp. split; [by f_equal|done].
  - by exists [].
Qed.

Lemma strip_no_leading_space (s : str) : lstrip (strip s) = strip s.
Proof.
  unfold strip.
  destruct (lstrip_split (rev (lstrip s))) as (p & Hp & _).
  destruct (rev (lstrip (rev (lstrip s)))) as [|c r] eqn:E; [done|].
  apply lstrip_fixed.
  assert (lstrip s = (c :: r) ++ rev p) as Ha.
  { rewrite <- E, <- rev_app_distr, <- Hp. by rewrite rev_involutive. }
  by apply (lstrip_head s c (r ++ rev p)).
Qed.

(** Stripping twice is stripping once. *)
Lemma strip_idem (s : str) : strip (strip s) = strip s.
Proof.
  unfold strip at 1. rewrite strip_no_leading_space.
  unfold strip. by rewrite rev_involutive, lstrip_idem.
Qed.

Lemma lstrip_map (f : N -> N) (s : str) :
  (forall c, is_space (f c) = is_space c) ->
  lstrip (List.map f s) = List.map f (lstrip s).
Proof.
  intros Hf. induction s as [|c s IH]; simpl; [done|].
  rewrite Hf. by destruct (is_space c).
Qed.

Lemma strip_map (f : N -> N) (s : str) :
  (forall c, is_space (f c) = is_space c) ->
  strip (List.map f s) = List.map f (strip s).
Proof.
  intros Hf. unfold strip.
  by rewrite lstrip_map, <- map_rev, lstrip_map, map_rev.
Qed.

Lemma lit_inj (a b : string) : lit a = lit b -> a = b.
Proof.
  unfold lit. intros H.
  rewrite <- (string_of_list_ascii_of_string a),
    <- (string_of_list_ascii_of_string b). f_equal.
  revert H. generalize (list_ascii_of_string a) (list_ascii_of_string b).
  intros la. induction la as [|x la IH]; intros [|y lb]; simpl; try done.
  intros [= Hxy Hl]. f_equal; [|by apply IH].
  rewrite <- (ascii_N_embedding x), <- (ascii_N_embedding y). by rewrite Hxy.
Qed.

(** Different numbers print differently. *)
Lemma of_nat_inj (i j : nat) : of_nat i = of_nat j -> i = j.
Proof.
  unfold of_nat. intros H%lit_inj. apply DecimalNat.Unsigned.to_uint_inj.
  assert (forall n, Nat.to_uint n <> Decimal.Nil) as Hnn.
  { intros n. rewrite <- (DecimalNat.Unsigned.of_to n) at 1.
    rewrite DecimalNat.Unsigned.to_of. apply DecimalFacts.unorm_nonnil. }
  pose proof (NilZero.usu _ (Hnn i)) as Hi.
  pose proof (NilZero.usu _ (Hnn j)) as Hj.
  rewrite H in Hi. rewrite Hi in Hj. by injection Hj.
Qed.

End Strip_facts.

(* ===================================================================== *)
(** * Header rows and column names *)
(* ===================================================================== *)

Module Header_facts.
Import Frame Strip_facts Locator_facts.

Lemma first_index_bound (p : nat -> bool) (n : nat) :
  first_index p n 0 = 0 \/ first_index p n 0 < n.
Proof.
  destruct (first_index_spec p n) as [[H _]|[H _]]; [by right|by left].
Qed.

(** The header row found is among the first nine rows (ten for extract1),
    and in a table of two rows or more another row follows it: after
    [find_header_row] the test [data_start_row >= len(df)] only holds for
    a table of one row. *)
Theorem header_row_is_followed_by_a_row (df : table) :
  find_header_row df <= 8
  /\ find_header_row_v1 df <= 9
  /\ (2 <= length df ->
      find_header_row df + 1 < length df
      /\ find_header_row_v1 df + 1 < length df)
  /\ (length df <= 1 -> find_header_row df = 0 /\ find_header_row_v1 df = 0).
Proof.
  unfold find_header_row, find_header_row_v1.
  destruct (first_index_bound (is_header_row (firstn (Nat.min 10 (length df)) df))
              (Nat.min 10 (length df) - 1)) as [Ha|Ha];
  destruct (first_index_bound (is_header_row_v1 df)
              (Nat.min 10 (length df - 1))) as [Hb|Hb];
  repeat split; lia.
Qed.

Lemma process_header_lookup (header_row first_data_row : row) (i : nat) :
  process_header header_row first_data_row !! i
  = column_name first_data_row i <$> header_row !! i.
Proof. unfold process_header. apply list_lookup_imap. Qed.

(** [process_header] gives one name per header cell, in order: the text
    of a header cell that is not blank, and the placeholder
    ["Column_<idx>"] when the header cell is blank and the row of data has
    no value there; the placeholders of different columns differ. *)
Theorem process_header_one_name_per_column
    (header_row first_data_row : row) :
  length (process_header header_row first_data_row) = length header_row
  /\ (forall i c, header_row !! i = Some c -> header_blank c = false ->
        process_header header_row first_data_row !! i = Some (cell_str c))
  /\ (forall i c, header_row !! i = Some c -> header_blank c = true ->
        isna (nth i first_data_row Missing) = true ->
        process_header header_row first_data_row !! i
        = Some (lit "Column_" ++ of_nat i))
  /\ (forall i j, lit "Column_" ++ of_nat i = lit "Column_" ++ of_nat j -> i = j).
Proof.
  split; [apply length_imap|]. split; [|split].
  - intros i c Hc Hb. rewrite process_header_lookup, Hc. simpl.
    unfold column_name. by rewrite Hb.
  - intros i c Hc Hb Hd. rewrite process_header_lookup, Hc. simpl.
    unfold column_name. rewrite Hb, Hd. by rewrite andb_false_r.
  - intros i j H. apply app_inv_head in H. by apply of_nat_inj.
Qed.

End Header_facts.

(* ===================================================================== *)
(** * What a harvest adds *)
(* ===================================================================== *)

Module Harvest_steps.
Import Frame Harvest Knowledge_order Harvest_run Strip_facts Harvest_facts.

Section Steps.
Variable keywords : list str.
Variable white_list_keywords : list str.
Variable lower : str -> str.
Variable float_ok : str -> bool.
Variable int_ok : str -> bool.

(** A property of the steps of a harvest: of doing nothing, of one step
    after another, and of the merge of a column that is in the white list
    and not skipped. *)
Variable Q : (knowledge -> knowledge) -> Prop.
Hypothesis Q_id : Q (fun kb => kb).
Hypothesis Q_compose : forall f g, Q f -> Q g -> Q (fun kb => g (f kb)).
Hypothesis Q_merge : forall col_name column_data,
  is_in_white_list white_list_keywords lower (Some col_name) = true ->
  should_skip_column keywords lower (Some col_name) = false ->
  Q (merge_column col_name (processed_data float_ok int_ok column_data)).

Lemma harvest_column_steps (data_df : table) (entry : nat * str) :
  Q (fun kb =>
       harvest_column keywords white_list_keywords lower float_ok int_ok
         data_df kb entry).
Proof.
  destruct entry as [col_idx col_name]. unfold harvest_column.
  destruct (width data_df <=? col_idx); [apply Q_id|].
  destruct (should_skip_column _ _ _) eqn:Es; [apply Q_id|].
  destruct (is_in_white_list _ _ _) eqn:Ew; [|apply Q_id].
  by apply Q_merge.
Qed.

Lemma fold_steps {A} (step : knowledge -> A -> knowledge) (l : list A) :
  (forall x, Q (fun kb => step kb x)) -> Q (fun kb => fold_left step l kb).
Proof.
  intros Hstep. induction l as [|x l IH]; simpl; [apply Q_id|].
  apply (Q_compose (fun kb => step kb x) (fun kb => fold_left step l kb));
    [apply Hstep|apply IH].
Qed.

Lemma sheets_loop_steps (first : sheet) (sheets : list sheet) :
  Q (sheets_loop keywords white_list_keywords lower float_ok int_ok first sheets).
Proof.
  induction sheets as [|s rest IH]; simpl; [apply Q_id|].
  destruct s as [|df]; [apply Q_id|].
  destruct (empty df); [apply Q_id|].
  destruct (length df <=? _); [apply Q_id|].
  destruct (read_skiprows first _) as [|data_df]; [apply Q_id|].
  apply (Q_compose
           (harvest_columns keywords white_list_keywords lower float_ok int_ok
              _ data_df)
           (sheets_loop keywords white_list_keywords lower float_ok int_ok
              first rest)); [|apply IH].
  unfold harvest_columns.
  apply (fold_steps
           (harvest_column keywords white_list_keywords lower float_ok int_ok
              data_df)).
  intros x. apply harvest_column_steps.
Qed.

(** Whatever holds of those steps holds of harvesting a workbook, a file,
    and the files of a folder. *)
Lemma process_excel_file_steps (workbook : list sheet) :
  Q (process_excel_file keywords white_list_keywords lower float_ok int_ok
       workbook).
Proof.
  destruct workbook as [|first rest]; [apply Q_id|]. apply sheets_loop_steps.
Qed.

Lemma harvest_file_steps (file : excel_file) :
  Q (fun kb =>
       harvest_file keywords white_list_keywords lower float_ok int_ok kb file).
Proof.
  destruct file as [|sheets]; [apply Q_id|]. apply process_excel_file_steps.
Qed.

Lemma harvest_files_steps (excel_files : list excel_file) :
  Q (fun kb =>
       fold_left
         (harvest_file keywords white_list_keywords lower float_ok int_ok)
         excel_files kb).
Proof.
  apply (fold_steps
           (harvest_file keywords white_list_keywords lower float_ok int_ok)).
  apply harvest_file_steps.
Qed.

End Steps.

Lemma stored_merge_column (col_name k : str) (processed : gset str)
    (kb : knowledge) :
  stored (merge_column col_name processed kb) k
  = if decide (col_name = k)
    then stored kb k ∪ additions col_name processed kb
    else stored kb k.
Proof.
  unfold stored at 1. destruct (decide (col_name = k)) as [<-|Hne].
  - by rewrite merge_column_lookup.
  - by rewrite merge_column_lookup_ne.
Qed.

Lemma additions_subseteq (col_name : str) (processed : gset str)
    (kb : knowledge) :
  additions col_name processed kb ⊆ processed.
Proof.
  unfold additions. destruct (decide (col_name = STANDARD)); [|done].
  intros v [_ Hv]%elem_of_filter. exact Hv.
Qed.

(** What the loop over the cells of a column keeps. *)
Lemma keep_item_Some (float_ok int_ok : str -> bool) (item : cell) (v : str) :
  keep_item float_ok int_ok item = Some v ->
  exists s, item = Text s /\ v = strip s
            /\ (if py_in [dot] s then float_ok s else int_ok s) = false
            /\ contains_chinese v = false /\ v <> [dash].
Proof.
  destruct item as [|s|r]; simpl; [done| |done].
  destruct (if py_in [dot] s then float_ok s else int_ok s) eqn:En; [done|].
  destruct (contains_chinese (strip s)) eqn:Ec; [done|].
  destruct (str_eqb (strip s) [dash]) eqn:Ed; [done|].
  intros [= <-]. exists s. repeat split; try done.
  by apply str_eqb_false.
Qed.

Lemma elem_of_processed_data (float_ok int_ok : str -> bool)
    (column_data : list cell) (v : str) :
  v ∈ processed_data float_ok int_ok column_data ->
  exists item, item ∈ column_data /\ keep_item float_ok int_ok item = Some v.
Proof.
  unfold processed_data. rewrite elem_of_list_to_set, list_elem_of_omap.
  intros (item & Hin & Hk). by exists item.
Qed.

End Harvest_steps.

(* ===================================================================== *)
(** * The snapshot written at the end *)
(* ===================================================================== *)

Module Snapshot_facts.
Import Frame Harvest Knowledge_order Harvest_run Strip_facts Harvest_facts
  Harvest_steps.

Lemma str_leb_total (a b : str) : str_leb a b = true \/ str_leb b a = true.
Proof.
  revert b. induction a as [|x a IH]; intros [|y b]; simpl; auto.
  destruct (N.lt_total x y) as [H|[->|H]].
  - left. apply N.ltb_lt in H. by rewrite H.
  - rewrite N.ltb_irrefl, N.eqb_refl. simpl. apply IH.
  - right. apply N.ltb_lt in H. by rewrite H.
Qed.

Lemma str_leb_trans (a b c : str) :
  str_leb a b = true -> str_leb b c = true -> str_leb a c = true.
Proof.
  revert b c. induction a as [|x a IH]; intros [|y b] [|z c]; simpl; try done.
  rewrite !orb_true_iff, !andb_true_iff, !N.ltb_lt, !N.eqb_eq.
  intros [Hxy|[-> Hab]] [Hyz|[-> Hbc]].
  - left. lia.
  - by left.
  - by left.
  - right. split; [done|]. by apply (IH b).
Qed.

Lemma str_leb_antisym (a b : str) :
  str_leb a b = true -> str_leb b a = true -> a = b.
Proof.
  revert b. induction a as [|x a IH]; intros [|y b]; simpl; try done.
  rewrite !orb_true_iff, !andb_true_iff, !N.ltb_lt, !N.eqb_eq.
  intros [Hxy|[-> Hab]] [Hyx|[Heq Hba]]; try lia.
  f_equal. by apply IH.
Qed.

Lemma str_le_total : Total str_le.
Proof.
  intros a b. unfold str_le.
  destruct (str_leb_total a b) as [-> | ->]; [by left|by right].
Qed.

Lemma str_le_trans : Transitive str_le.
Proof.
  intros a b c Hab Hbc. apply Is_true_true.
  apply (str_leb_trans a b c); by apply Is_true_true.
Qed.

Lemma str_le_antisym : AntiSymm (=) str_le.
Proof.
  intros a b Hab Hba. apply str_leb_antisym; by apply Is_true_true.
Qed.

Lemma sorted_perm (S : gset str) : sorted S ≡ₚ elements S.
Proof. unfold sorted. apply merge_sort_Permutation. Qed.

Lemma elem_of_sorted (S : gset str) (v : str) : v ∈ sorted S <-> v ∈ S.
Proof. by rewrite sorted_perm, elem_of_elements. Qed.

Lemma sorted_nil (S : gset str) : sorted S = [] <-> S = ∅.
Proof.
  split.
  - intros H. apply set_eq. intros v. rewrite <- elem_of_sorted, H.
    split; [by intros ?%elem_of_nil|by intros ?%not_elem_of_empty].
  - intros ->. apply Permutation_nil_r. rewrite sorted_perm.
    by rewrite elements_empty.
Qed.

Lemma sorted_strongly (S : gset str) : StronglySorted str_le (sorted S).
Proof.
  unfold sorted.
  apply (@StronglySorted_merge_sort _ str_le _ str_le_trans str_le_total).
Qed.

Lemma sorted_NoDup (S : gset str) : NoDup (sorted S).
Proof. rewrite sorted_perm. apply NoDup_elements. Qed.

(** Reading a sorted list back as a set, and sorting it again. *)
Lemma list_to_set_sorted (S : gset str) : list_to_set (sorted S) = S.
Proof. rewrite sorted_perm. apply list_to_set_elements_L. Qed.

(** A column of the snapshot is the sorted list of a set of values that is
    not empty. *)
Lemma finalize_lookup_Some (kb : knowledge) (k : str) (l : list str) :
  finalize kb !! k = Some l <->
  exists S, kb !! k = Some S /\ l = sorted S /\ S <> ∅.
Proof.
  unfold finalize. rewrite map_lookup_filter_Some, lookup_fmap_Some. simpl.
  split.
  - intros [(S & <- & HS) Hne]. exists S. split; [done|]. split; [done|].
    intros ->. apply Hne. by apply sorted_nil.
  - intros (S & HS & -> & Hne). split; [by exists S|].
    intros Hnil. by apply Hne, sorted_nil.
Qed.

Lemma finalize_lookup (kb : knowledge) (k : str) :
  finalize kb !! k
  = if decide (stored kb k = ∅) then None else Some (sorted (stored kb k)).
Proof.
  destruct (decide (stored kb k = ∅)) as [He|Hne].
  - destruct (finalize kb !! k) as [l|] eqn:E; [|done].
    apply finalize_lookup_Some in E as (S & HS & -> & Hne).
    unfold stored in He. rewrite HS in He. done.
  - apply finalize_lookup_Some. unfold stored in *.
    destruct (kb !! k) as [S|]; [by exists S|done].
Qed.

(** The snapshot depends on the values of the columns only. *)
Lemma finalize_ext (a b : knowledge) :
  (forall k, stored a k = stored b k) -> finalize a = finalize b.
Proof.
  intros H. apply map_eq. intros k. by rewrite !finalize_lookup, H.
Qed.

Lemma stored_load_finalize (kb : knowledge) (k : str) :
  stored (load_snapshot (Some (finalize kb))) k = stored kb k.
Proof.
  unfold stored at 1, load_snapshot. rewrite lookup_fmap, finalize_lookup.
  destruct (decide (stored kb k = ∅)) as [->|Hne]; [done|].
  simpl. apply list_to_set_sorted.
Qed.

(** In the snapshot every column is a list that is not empty, has no
    value twice, ascends in code point order and holds the values of the
    column, all of them; a column without values is left out. *)
Theorem snapshot_columns_are_sorted_sets (kb : knowledge) (k : str) :
  (stored kb k = ∅ -> finalize kb !! k = None)
  /\ (forall l, finalize kb !! k = Some l ->
        l <> [] /\ NoDup l /\ StronglySorted str_le l
        /\ forall v, v ∈ l <-> v ∈ stored kb k).
Proof.
  split.
  - intros He. rewrite finalize_lookup. by rewrite decide_True.
  - intros l (S & HS & -> & Hne)%finalize_lookup_Some.
    split; [by intros ?%sorted_nil|]. split; [apply sorted_NoDup|].
    split; [apply sorted_strongly|]. intros v. unfold stored. rewrite HS.
    simpl. apply elem_of_sorted.
Qed.

(** Written and read back, then written again without any harvest in
    between, a snapshot is the same. *)
Theorem snapshot_round_trip (kb : knowledge) :
  finalize (load_snapshot (Some (finalize kb))) = finalize kb.
Proof. apply finalize_ext. apply stored_load_finalize. Qed.

End Snapshot_facts.

(* ===================================================================== *)
(** * The run over a folder *)
(* ===================================================================== *)

Module Run_facts.
Import Frame Harvest Knowledge_order Harvest_run Strip_facts Harvest_facts
  Harvest_steps Snapshot_facts Inputs Run_inputs.

Lemma settling_id : settling (fun kb => kb).
Proof. split; [by intros kb k|done]. Qed.

Lemma settling_compose (f g : knowledge -> knowledge) :
  settling f -> settling g -> settling (fun kb => g (f kb)).
Proof.
  intros [Hf1 Hf2] [Hg1 Hg2]. split.
  - intros kb k. etrans; [apply Hf1|apply Hg1].
  - intros kb kb' H k.
    assert (forall k, stored (f kb') k = stored kb' k) as Hf.
    { apply (Hf2 kb). intros k'. etrans; [apply Hg1|apply H]. }
    rewrite <- Hf. apply (Hg2 (f kb)). intros k'. rewrite Hf. apply H.
Qed.

Lemma merge_column_settling (col_name : str) (processed : gset str) :
  settling (merge_column col_name processed).
Proof.
  split.
  - intros kb k. rewrite stored_merge_column.
    destruct (decide (col_name = k)); [apply union_subseteq_l|done].
  - intros kb kb' H k. rewrite stored_merge_column.
    destruct (decide (col_name = k)) as [<-|Hne]; [|done].
    rewrite (comm_L (∪)). apply subseteq_union_1_L.
    apply (additions_absorbed col_name processed kb kb').
    specialize (H col_name). rewrite stored_merge_column in H.
    by rewrite decide_True in H.
Qed.

Section Folder.
Variable keywords : list str.
Variable white_list_keywords : list str.
Variable lower : str -> str.
Variable float_ok : str -> bool.
Variable int_ok : str -> bool.

Lemma harvest_files_settling (excel_files : list excel_file) :
  settling (fun kb =>
    fold_left (harvest_file keywords white_list_keywords lower float_ok int_ok)
      excel_files kb).
Proof.
  apply (harvest_files_steps keywords white_list_keywords lower float_ok int_ok
           settling settling_id settling_compose).
  intros col_name column_data _ _. apply merge_column_settling.
Qed.

Lemma process_folder_from_its_result
    (orign_map_data : option (gmap str (list str)))
    (excel_files : list excel_file) :
  let run :=
    process_folder keywords white_list_keywords lower float_ok int_ok in
  run (Some (run orign_map_data excel_files)) excel_files
  = run orign_map_data excel_files.
Proof.
  intros run. unfold run, process_folder.
  destruct excel_files as [|file files]; [done|].
  apply finalize_ext. intros k.
  destruct (harvest_files_settling (file :: files)) as [_ H].
  rewrite (H (load_snapshot orign_map_data)).
  - apply stored_load_finalize.
  - intros k'. by rewrite stored_load_finalize.
Qed.

(** Run again on the same files, with the snapshot file as the first run
    left it, [process_folder] gives the same result as the first run. *)
Theorem second_run_gives_the_same_snapshot
    (orign_map_data : option (gmap str (list str)))
    (excel_files : list excel_file) :
  let run :=
    process_folder keywords white_list_keywords lower float_ok int_ok in
  run (snapshot_after_main keywords white_list_keywords lower float_ok int_ok
         orign_map_data excel_files)
      excel_files
  = run orign_map_data excel_files.
Proof.
  intros run. unfold snapshot_after_main. fold run.
  destruct (decide (run orign_map_data excel_files = ∅)); [done|].
  apply process_folder_from_its_result.
Qed.

(** A column of the snapshot that the snapshot read at the start did not
    have is in the white list and not skipped: its name contains a white
    list keyword, no skip keyword, and a CJK character. *)
Theorem new_columns_pass_the_classifier
    (orign_map_data : option (gmap str (list str)))
    (excel_files : list excel_file) (k : str) :
  is_Some (process_folder keywords white_list_keywords lower float_ok int_ok
             orign_map_data excel_files !! k) ->
  load_snapshot orign_map_data !! k = None ->
  is_in_white_list white_list_keywords lower (Some k) = true
  /\ should_skip_column keywords lower (Some k) = false
  /\ contains_chinese k = true.
Proof.
  intros [l Hl] Hnew. unfold process_folder in Hl.
  destruct excel_files as [|file files]; [by rewrite lookup_empty in Hl|].
  apply finalize_lookup_Some in Hl as (S & HS & _ & _).
  pose proof (harvest_files_steps keywords white_list_keywords lower
                float_ok int_ok
                (fun f => forall kb k, is_Some (f kb !! k) ->
                   is_Some (kb !! k)
                   \/ (is_in_white_list white_list_keywords lower (Some k) = true
                       /\ should_skip_column keywords lower (Some k) = false)))
    as Hsteps.
  destruct (Hsteps) with (excel_files := file :: files)
                         (kb := load_snapshot orign_map_data) (k := k)
    as [Hold|[Hw Hs]].
  - by left.
  - intros f g Hf Hg kb k' Hk'. destruct (Hg _ _ Hk') as [H|H]; [|by right].
    by apply Hf.
  - intros col_name column_data Hw Hs kb k' Hk'.
    destruct (decide (col_name = k')) as [<-|Hne]; [by right|].
    left. by rewrite merge_column_lookup_ne in Hk'.
  - by exists S.
  - rewrite Hnew in Hold. by destruct Hold.
  - split; [done|]. split; [done|].
    unfold should_skip_column, is_in_white_list in *.
    destruct (str_eqb k []); [done|].
    destruct (existsb _ keywords); [done|].
    by destruct (contains_chinese k).
Qed.

(** A value of the snapshot that the snapshot read at the start did not
    have under that column comes from a text cell that neither [float]
    nor [int] accepted; it is stripped, has no CJK character and is not a
    lone dash. *)
Theorem new_values_are_clean
    (orign_map_data : option (gmap str (list str)))
    (excel_files : list excel_file) (k : str) (l : list str) (v : str) :
  process_folder keywords white_list_keywords lower float_ok int_ok
    orign_map_data excel_files !! k = Some l ->
  v ∈ l ->
  v ∉ stored (load_snapshot orign_map_data) k ->
  clean v
  /\ exists s, v = strip s
       /\ (if py_in [dot] s then float_ok s else int_ok s) = false.
Proof.
  intros Hl Hv Hnew. unfold process_folder in Hl.
  destruct excel_files as [|file files]; [by rewrite lookup_empty in Hl|].
  apply finalize_lookup_Some in Hl as (S & HS & -> & _).
  apply elem_of_sorted in Hv.
  pose proof (harvest_files_steps keywords white_list_keywords lower
                float_ok int_ok
                (fun f => forall kb k v, v ∈ stored (f kb) k ->
                   v ∈ stored kb k
                   \/ (clean v
                       /\ exists s, v = strip s
                            /\ (if py_in [dot] s then float_ok s else int_ok s)
                               = false)))
    as Hsteps.
  destruct (Hsteps) with (excel_files := file :: files)
                         (kb := load_snapshot orign_map_data) (k := k) (v := v)
    as [Hold|Hgood]; try done.
  - by left.
  - intros f g Hf Hg kb k' v' Hv'. destruct (Hg _ _ _ Hv') as [H|H]; [|by right].
    by apply Hf.
  - intros col_name column_data _ _ kb k' v'. rewrite stored_merge_column.
    destruct (decide (col_name = k')) as [<-|Hne]; [|by left].
    intros [H|H]%elem_of_union; [by left|right].
    apply additions_subseteq, elem_of_processed_data in H as (item & _ & Hk).
    apply keep_item_Some in Hk as (s & _ & -> & Hnum & Hc & Hd).
    split; [|by exists s]. split; [apply strip_idem|done].
  - unfold stored. by rewrite HS.
Qed.

End Folder.

Lemma folder_run :
  run_main (Some first_snapshot) folder
  = {[STANDARD := [a312]; MATERIAL := [ss316]]}.
Proof. by vm_compute. Qed.

Lemma new_columns_pass_the_classifier_witness :
  is_Some (run_main (Some first_snapshot) folder !! MATERIAL)
  /\ load_snapshot (Some first_snapshot) !! MATERIAL = None
  /\ is_in_white_list white_list Ascii_runtime.lower (Some MATERIAL) = true
  /\ should_skip_column skip_keywords Ascii_runtime.lower (Some MATERIAL) = false
  /\ contains_chinese MATERIAL = true.
Proof.
  assert (is_Some (run_main (Some first_snapshot) folder !! MATERIAL)) as H1.
  { exists [ss316]. by vm_compute. }
  assert (load_snapshot (Some first_snapshot) !! MATERIAL = None) as H2
    by (by vm_compute).
  split; [exact H1|]. split; [exact H2|].
  exact (new_columns_pass_the_classifier skip_keywords white_list
           Ascii_runtime.lower Ascii_runtime.float_ok Ascii_runtime.int_ok
           (Some first_snapshot) folder MATERIAL H1 H2).
Defined.

Lemma new_values_are_clean_witness :
  run_main (Some first_snapshot) folder !! MATERIAL = Some [ss316]
  /\ ss316 ∈ [ss316]
  /\ (ss316 ∉ stored (load_snapshot (Some first_snapshot)) MATERIAL)
  /\ clean ss316
  /\ exists s, ss316 = strip s
       /\ (if py_in [dot] s then Ascii_runtime.float_ok s
           else Ascii_runtime.int_ok s) = false.
Proof.
  assert (run_main (Some first_snapshot) folder !! MATERIAL = Some [ss316])
    as H1 by (by vm_compute).
  assert (ss316 ∈ [ss316]) as H2 by apply list_elem_of_here.
  assert (ss316 ∉ stored (load_snapshot (Some first_snapshot)) MATERIAL) as H3.
  { apply (bool_decide_unpack _). by vm_compute. }
  split; [exact H1|]. split; [exact H2|]. split; [exact H3|].
  exact (new_values_are_clean skip_keywords white_list
           Ascii_runtime.lower Ascii_runtime.float_ok Ascii_runtime.int_ok
           (Some first_snapshot) folder MATERIAL [ss316] ss316 H1 H2 H3).
Defined.

End Run_facts.

(* ===================================================================== *)
(** * The fields of a record *)
(* ===================================================================== *)

Module Record_facts.
Import Split Split_file Decomposer_spec Decomposer_facts Strip_facts Inputs
  Run_inputs.

Lemma dict_get_Some_keys {V} (d : dict V) (k : str) :
  is_Some (dict_get d k) <-> In k (List.map fst d).
Proof.
  induction d as [|[k0 v0] d IH]; simpl.
  - split; [by intros [? ?]|done].
  - destruct (str_eqb k0 k) eqn:E.
    + apply str_eqb_true in E as ->. split; [by left|by eexists].
    + apply str_eqb_false in E. rewrite IH. split; [by right|by intros [?|?]].
Qed.

Lemma dict_set_keys {V} (d : dict V) (k : str) (v : V) :
  In k (List.map fst d) -> List.map fst (dict_set d k v) = List.map fst d.
Proof.
  induction d as [|[k0 v0] d IH]; simpl; [done|].
  destruct (str_eqb k0 k) eqn:E; simpl; [done|].
  apply str_eqb_false in E. intros [?|Hin]; [done|]. by rewrite IH.
Qed.

Lemma dict_set_new_key {V} (d : dict V) (k : str) (v : V) :
  ~ In k (List.map fst d) -> List.map fst (dict_set d k v) = List.map fst d ++ [k].
Proof.
  induction d as [|[k0 v0] d IH]; simpl; [done|].
  intros Hk. destruct (str_eqb k0 k) eqn:E; simpl.
  - apply str_eqb_true in E. exfalso. apply Hk. by left.
  - rewrite IH; [done|]. intros H. apply Hk. by right.
Qed.

Lemma fold_keys_fresh (keys : list str) (d : dict str) :
  NoDup keys -> (forall k, In k keys -> ~ In k (List.map fst d)) ->
  List.map fst (fold_left (fun row_data key => dict_set row_data key []) keys d)
  = List.map fst d ++ keys.
Proof.
  revert d. induction keys as [|k keys IH]; intros d Hnd Hfresh; simpl.
  - by rewrite app_nil_r.
  - apply NoDup_cons in Hnd as [Hk Hnd].
    rewrite IH; [|done|].
    + rewrite dict_set_new_key by (apply Hfresh; by left).
      by rewrite <- app_assoc.
    + intros k' Hk'. rewrite dict_set_new_key by (apply Hfresh; by left).
      intros [H|[->|[]]]%in_app_or.
      * apply (Hfresh k'); [by right|done].
      * apply Hk. by apply list_elem_of_In.
Qed.

(** The fields of a fresh record. *)
Lemma initial_row_keys (kb : dict (list str)) (value : str) :
  NoDup (List.map fst kb) ->
  ~ In DESCRIPTION (List.map fst kb) -> ~ In REMARK (List.map fst kb) ->
  List.map fst (initial_row kb value)
  = DESCRIPTION :: List.map fst kb ++ [REMARK].
Proof.
  intros Hnd Hd Hr. unfold initial_row.
  assert (List.map fst
            (fold_left (fun row_data key => dict_set row_data key [])
               (List.map fst kb) (dict_set [] DESCRIPTION value))
          = DESCRIPTION :: List.map fst kb) as Hkeys.
  { rewrite fold_keys_fresh; [done|done|].
    intros k Hk [<-|[]]. by apply Hd. }
  rewrite dict_set_new_key; rewrite Hkeys; [done|].
  intros [H|H]; [discriminate H|by apply Hr].
Qed.

Section Fields.
Variable lower : str -> str.
Variable float_ok : str -> bool.
Variable scorer : str -> str -> Q.

Lemma name_scan_keys (token : str) (values : list str) (row row' : dict str) :
  name_scan lower token values row = Some row' ->
  List.map fst row' = List.map fst row.
Proof.
  unfold name_scan. revert row.
  induction values as [|v values IH]; intros row; simpl; [by intros [= <-]|].
  destruct (py_in (lower v) (lower token)); [|apply IH].
  destruct (dict_get row NAME) as [cur|] eqn:E.
  - intros H. rewrite (IH _ H). apply dict_set_keys.
    apply dict_get_Some_keys. by rewrite E.
  - intros H. exfalso. clear -H.
    induction values as [|w values IHv]; simpl in H; [done|by apply IHv].
Qed.

(** One column leaves the fields of the record as they are, and changes
    no value but its own. *)
Lemma column_step_keys (token : str) (row row' : dict str) (m m' : bool)
    (entry : str * list str) :
  In entry.1 (List.map fst row) ->
  column_step lower scorer token (Some (row, m)) entry = Some (row', m') ->
  List.map fst row' = List.map fst row
  /\ forall k, k <> entry.1 -> dict_get row' k = dict_get row k.
Proof.
  destruct entry as [c vs]. simpl. intros Hc. unfold column_step.
  destruct (str_eqb c NAME) eqn:En.
  - apply str_eqb_true in En as ->.
    destruct (name_scan lower token vs row) as [row1|] eqn:Hscan; [|done].
    pose proof (name_scan_keys token vs row row1 Hscan) as Hk1.
    destruct (dict_get row NAME) as [cur|] eqn:Hcur.
    2:{ apply dict_get_Some_keys in Hc. rewrite Hcur in Hc. by destruct Hc. }
    destruct (name_scan_spec lower token vs row cur Hcur)
      as (row1' & Hscan' & _ & Hframe).
    rewrite Hscan in Hscan'. injection Hscan' as <-.
    change (str_eqb NAME STANDARD || str_eqb NAME MATERIAL) with false.
    simpl. rewrite fuzzy_step_spec, str_eqb_refl.
    destruct (fuzzy_hit scorer token vs); intros [= <- <-].
    + split.
      * rewrite dict_set_keys; [done|]. by rewrite Hk1.
      * intros k Hk. rewrite dict_get_set_ne by done. by apply Hframe.
    + by split.
  - destruct (str_eqb c STANDARD || str_eqb c MATERIAL).
    + destruct (substring_hit lower token vs); intros [= <- <-]; [|done].
      split; [by apply dict_set_keys|].
      intros k Hk. by apply dict_get_set_ne.
    + rewrite fuzzy_step_spec, En.
      destruct (fuzzy_hit scorer token vs); intros [= <- <-]; [|done].
      split; [by apply dict_set_keys|].
      intros k Hk. by apply dict_get_set_ne.
Qed.

(** A column other than "名称" joins the token to its field on a hit. *)
Lemma column_step_own_field (token c : str) (values : list str)
    (row : dict str) (m : bool) :
  c <> NAME ->
  column_step lower scorer token (Some (row, m)) (c, values)
  = Some (if hit lower scorer token (c, values)
          then dict_set row c (joined (dict_get row c) token)
          else row,
          m || hit lower scorer token (c, values)).
Proof.
  intros Hn. unfold column_step, hit. simpl.
  rewrite (proj2 (str_eqb_false c NAME) Hn).
  destruct (str_eqb c STANDARD || str_eqb c MATERIAL).
  - destruct (substring_hit lower token values);
      by rewrite ?orb_true_r, ?orb_false_r.
  - rewrite fuzzy_step_spec, (proj2 (str_eqb_false c NAME) Hn).
    destruct (fuzzy_hit scorer token values);
      by rewrite ?orb_true_r, ?orb_false_r.
Qed.

Lemma columns_fold_None (token : str) (kb : dict (list str)) :
  fold_left (column_step lower scorer token) kb None = None.
Proof. induction kb as [|[c vs] kb IH]; [done|apply IH]. Qed.

Lemma columns_fold_keys (token : str) (kb : dict (list str))
    (row row' : dict str) (m m' : bool) :
  (forall k, In k (List.map fst kb) -> In k (List.map fst row)) ->
  fold_left (column_step lower scorer token) kb (Some (row, m))
    = Some (row', m') ->
  List.map fst row' = List.map fst row.
Proof.
  revert row m. induction kb as [|entry kb IH]; intros row m Hkeys; simpl.
  - by intros [= <- <-].
  - destruct (column_step lower scorer token (Some (row, m)) entry)
      as [[row1 m1]|] eqn:E.
    + destruct (column_step_keys token row row1 m m1 entry) as [Hk1 _];
        [apply Hkeys; by left|done|].
      intros H. rewrite (IH row1 m1); [done| |done].
      intros k Hk. rewrite Hk1. apply Hkeys. by right.
    + by rewrite columns_fold_None.
Qed.

(** The field of a column other than "名称" after all the columns. *)
Lemma columns_fold_own_field (token c : str) (values : list str)
    (kb : dict (list str)) (row row' : dict str) (m m' : bool) :
  NoDup (List.map fst kb) -> In (c, values) kb -> c <> NAME ->
  (In NAME (List.map fst kb) -> is_Some (dict_get row NAME)) ->
  fold_left (column_step lower scorer token) kb (Some (row, m))
    = Some (row', m') ->
  dict_get row' c
  = if hit lower scorer token (c, values)
    then Some (joined (dict_get row c) token)
    else dict_get row c.
Proof.
  revert row m. induction kb as [|entry kb IH]; intros row m Hnd Hin Hn Hname;
    [done|].
  simpl in Hnd. apply NoDup_cons in Hnd as [Hfresh Hnd].
  cbn [fold_left]. destruct Hin as [->|Hin].
  - rewrite column_step_own_field by done.
    set (row1 := if hit lower scorer token (c, values)
                 then dict_set row c (joined (dict_get row c) token) else row).
    destruct (columns_fold_spec lower scorer token kb row1
                (m || hit lower scorer token (c, values)))
      as (row2 & Hfold & _ & Hframe & _).
    { intros HN. unfold row1. destruct (hit _ _ _ _).
      - apply dict_get_set_some, Hname. by right.
      - apply Hname. by right. }
    rewrite Hfold. intros [= <- _]. rewrite Hframe.
    + unfold row1. destruct (hit _ _ _ _); [apply dict_get_set_eq|done].
    + intros H. apply Hfresh. by apply list_elem_of_In.
  - assert (entry.1 <> c) as Hne.
    { intros <-. apply Hfresh. apply list_elem_of_In.
      apply (in_map fst) in Hin. exact Hin. }
    destruct (column_step_spec lower scorer token row m entry)
      as (row1 & Hstep & Hkeys1 & Hframe1 & _).
    { intros E. apply Hname. left. exact E. }
    rewrite Hstep. intros Hfold.
    rewrite (IH row1 (m || hit lower scorer token entry) Hnd Hin Hn);
      [| |exact Hfold].
    + by rewrite (Hframe1 c) by done.
    + intros HN. destruct (decide (entry.1 = NAME)) as [E|E].
      * apply Hkeys1, Hname. by left.
      * rewrite Hframe1 by done. apply Hname. by right.
Qed.

Lemma tokens_fold_None (kb : dict (list str)) (ts : list str) :
  fold_left (token_step lower float_ok scorer kb) ts None = None.
Proof. induction ts as [|t ts IH]; [done|apply IH]. Qed.

(** One token leaves the fields of the record as they are, and the values
    of the fields that are neither a column nor "备注". *)
Lemma token_step_keys (kb : dict (list str)) (row row1 : dict str)
    (token : str) :
  (forall k, In k (List.map fst kb) -> In k (List.map fst row)) ->
  In REMARK (List.map fst row) ->
  (In NAME (List.map fst kb) -> is_Some (dict_get row NAME)) ->
  token_step lower float_ok scorer kb (Some row) token = Some row1 ->
  List.map fst row1 = List.map fst row
  /\ forall k, ~ In k (List.map fst kb) -> k <> REMARK ->
       dict_get row1 k = dict_get row k.
Proof.
  intros Hkeys Hr Hname. unfold token_step.
  destruct (skipped float_ok token); [by intros [= <-]|].
  destruct (columns_fold_spec lower scorer token kb row false Hname)
    as (row' & Hfold & _ & Hframe & _).
  rewrite Hfold.
  pose proof (columns_fold_keys token kb row row' _ _ Hkeys Hfold) as Hk'.
  destruct (false || matched lower scorer kb token); intros [= <-].
  - split; [done|]. intros k Hk _. by apply Hframe.
  - split.
    + rewrite dict_set_keys; [done|]. by rewrite Hk'.
    + intros k Hk Hne. rewrite dict_get_set_ne by done. by apply Hframe.
Qed.

(** One token and the field of a column other than "名称". *)
Lemma token_step_own_field (kb : dict (list str)) (c : str)
    (values : list str) (row row1 : dict str) (token : str) :
  NoDup (List.map fst kb) -> In (c, values) kb -> c <> NAME -> c <> REMARK ->
  (In NAME (List.map fst kb) -> is_Some (dict_get row NAME)) ->
  token_step lower float_ok scorer kb (Some row) token = Some row1 ->
  dict_get row1 c
  = if negb (skipped float_ok token) && hit lower scorer token (c, values)
    then Some (joined (dict_get row c) token)
    else dict_get row c.
Proof.
  intros Hnd Hin Hn Hr Hname. unfold token_step.
  destruct (skipped float_ok token); [by intros [= <-]|]. simpl.
  destruct (fold_left (column_step lower scorer token) kb (Some (row, false)))
    as [[row' m']|] eqn:Hfold; [|done].
  pose proof (columns_fold_own_field token c values kb row row' _ _
                Hnd Hin Hn Hname Hfold) as Hc.
  destruct m'; intros [= <-]; [done|].
  by rewrite dict_get_set_ne.
Qed.

(** A field to which each token is either joined or not, after all the
    tokens. *)
Lemma tokens_fold_joined (kb : dict (list str)) (k : str) (sel : str -> bool)
    (ts : list str) :
  (forall t row row1,
     (In NAME (List.map fst kb) -> is_Some (dict_get row NAME)) ->
     token_step lower float_ok scorer kb (Some row) t = Some row1 ->
     dict_get row1 k
     = if sel t then Some (joined (dict_get row k) t) else dict_get row k) ->
  forall row row1 cur,
    (In NAME (List.map fst kb) -> is_Some (dict_get row NAME)) ->
    dict_get row k = Some cur ->
    fold_left (token_step lower float_ok scorer kb) ts (Some row) = Some row1 ->
    dict_get row1 k
    = Some (fold_left (fun cur t => joined (Some cur) t) (List.filter sel ts) cur).
Proof.
  intros Hstep. induction ts as [|t ts IH]; intros row row1 cur Hname Hcur.
  - simpl. by intros [= <-].
  - cbn [fold_left].
    destruct (token_step_spec lower float_ok scorer kb row t Hname)
      as (row2 & Hrow2 & Hkeys & _ & _).
    rewrite Hrow2. intros Hfold.
    pose proof (Hstep t row row2 Hname Hrow2) as Hk. rewrite Hcur in Hk.
    simpl. destruct (sel t); simpl;
      apply (IH row2 row1 _); try done; intros HN; by apply Hkeys, Hname.
Qed.

End Fields.

(** Every description gives a record, whose fields are "description", the
    columns of the knowledge base in their order, and "备注"; the
    description field holds the text. *)
Theorem record_has_the_fields_of_the_knowledge_base
    (lower : str -> str) (float_ok : str -> bool) (scorer : str -> str -> Q)
    (kb : dict (list str)) (value : str) :
  NoDup (List.map fst kb) ->
  ~ In DESCRIPTION (List.map fst kb) -> ~ In REMARK (List.map fst kb) ->
  exists row,
    decompose lower float_ok scorer kb value = Some row
    /\ List.map fst row = DESCRIPTION :: List.map fst kb ++ [REMARK]
    /\ dict_get row DESCRIPTION = Some value.
Proof.
  intros Hnd Hd Hr. unfold decompose.
  pose proof (initial_row_keys kb value Hnd Hd Hr) as Hinit.
  assert (dict_get (initial_row kb value) DESCRIPTION = Some value) as Hdesc.
  { unfold initial_row. rewrite dict_get_set_ne by discriminate.
    rewrite fold_keys_other by done. apply dict_get_set_eq. }
  revert Hinit Hdesc. generalize (initial_row kb value) as row.
  induction (tokens value) as [|t ts IH]; intros row Hkeys Hdesc.
  - exists row. by simpl.
  - cbn [fold_left].
    assert (In NAME (List.map fst kb) -> is_Some (dict_get row NAME)) as Hname.
    { intros HN. apply dict_get_Some_keys. rewrite Hkeys. right.
      apply in_or_app. by left. }
    destruct (token_step_spec lower float_ok scorer kb row t Hname)
      as (row1 & Hrow1 & _).
    rewrite Hrow1.
    destruct (token_step_keys lower float_ok scorer kb row row1 t)
      as [Hk1 Hframe]; try done.
    + intros k Hk. rewrite Hkeys. right. apply in_or_app. by left.
    + rewrite Hkeys. right. apply in_or_app. right. by left.
    + apply IH; [by rewrite Hk1|].
      rewrite Hframe; [done|done|discriminate].
Qed.

(** The field of a column other than "名称" ends holding, joined by commas
    in their order, the tokens that are not skipped and that hit the
    column: by a substring for "标准" and "材质", by a fuzzy score of at
    least 80 before rounding for the others; a token is joined once,
    however many candidates it hits. *)
Theorem column_field_joins_its_hits
    (lower : str -> str) (float_ok : str -> bool) (scorer : str -> str -> Q)
    (kb : dict (list str)) (value c : str) (values : list str) :
  NoDup (List.map fst kb) -> ~ In REMARK (List.map fst kb) ->
  In (c, values) kb -> c <> NAME ->
  exists row,
    decompose lower float_ok scorer kb value = Some row
    /\ dict_get row c
       = Some (join_tokens
                 (List.filter
                    (fun t => negb (skipped float_ok t)
                              && hit lower scorer t (c, values))
                    (tokens value))).
Proof.
  intros Hnd Hr Hin Hn. unfold decompose.
  assert (In c (List.map fst kb)) as Hc by (apply (in_map fst) in Hin; exact Hin).
  assert (In NAME (List.map fst kb) ->
          is_Some (dict_get (initial_row kb value) NAME)) as Hname.
  { intros HN. rewrite initial_row_blank by done. by eexists. }
  destruct (tokens_fold_spec lower float_ok scorer kb (tokens value)
              (initial_row kb value) Hname) as (row & Hrow & _).
  exists row. split; [exact Hrow|].
  apply (tokens_fold_joined lower float_ok scorer kb c _ (tokens value))
    with (row := initial_row kb value); try done.
  - intros t r r1 Hnm Hstep.
    apply (token_step_own_field lower float_ok scorer kb c values r r1 t);
      try done.
    intros ->. by apply Hr.
  - by apply initial_row_blank.
Qed.

(** "备注" ends holding, joined by commas in their order, the tokens that
    are not skipped and that no column matched, a fuzzy match being a
    score of at least 80 before rounding. *)
Theorem remainder_joins_the_unmatched
    (lower : str -> str) (float_ok : str -> bool) (scorer : str -> str -> Q)
    (kb : dict (list str)) (value : str) :
  ~ In REMARK (List.map fst kb) ->
  exists row,
    decompose lower float_ok scorer kb value = Some row
    /\ dict_get row REMARK
       = Some (join_tokens
                 (List.filter
                    (fun t => negb (skipped float_ok t
                                    || matched lower scorer kb t))
                    (tokens value))).
Proof.
  intros Hr. unfold decompose.
  assert (In NAME (List.map fst kb) ->
          is_Some (dict_get (initial_row kb value) NAME)) as Hname.
  { intros HN. rewrite initial_row_blank by done. by eexists. }
  destruct (tokens_fold_spec lower float_ok scorer kb (tokens value)
              (initial_row kb value) Hname) as (row & Hrow & _).
  exists row. split; [exact Hrow|].
  apply (tokens_fold_joined lower float_ok scorer kb REMARK _ (tokens value))
    with (row := initial_row kb value); try done.
  - intros t r r1 Hnm Hstep.
    destruct (token_step_spec lower float_ok scorer kb r t Hnm)
      as (r1' & Hr1' & _ & Hrem & _).
    rewrite Hstep in Hr1'. injection Hr1' as <-. rewrite (Hrem Hr).
    by destruct (skipped float_ok t || matched lower scorer kb t).
  - unfold initial_row. apply dict_get_set_eq.
Qed.

Lemma catalog_kb_keys :
  NoDup (List.map fst catalog_kb)
  /\ ~ In DESCRIPTION (List.map fst catalog_kb)
  /\ ~ In REMARK (List.map fst catalog_kb).
Proof.
  split; [apply (bool_decide_unpack _); by vm_compute|].
  split; simpl; intros [H|[H|[H|[]]]]; discriminate H.
Qed.

Lemma record_has_the_fields_of_the_knowledge_base_witness :
  NoDup (List.map fst catalog_kb)
  /\ ~ In DESCRIPTION (List.map fst catalog_kb)
  /\ ~ In REMARK (List.map fst catalog_kb)
  /\ decompose_ascii catalog_kb order_line
     = Some [(DESCRIPTION, order_line); (MATERIAL, lit "SS316 seamless");
             (STANDARD, lit "ASTM A312,A312 TP316"); (PRESSURE, lit "150LB");
             (REMARK, lit "flange")]
  /\ exists row,
       decompose_ascii catalog_kb order_line = Some row
       /\ List.map fst row = DESCRIPTION :: List.map fst catalog_kb ++ [REMARK]
       /\ dict_get row DESCRIPTION = Some order_line.
Proof.
  destruct catalog_kb_keys as (H1 & H2 & H3).
  split; [exact H1|]. split; [exact H2|]. split; [exact H3|].
  split; [by vm_compute|].
  exact (record_has_the_fields_of_the_knowledge_base Ascii_runtime.lower
           Ascii_runtime.float_ok Ascii_runtime.token_sort_ratio
           catalog_kb order_line H1 H2 H3).
Defined.

Lemma column_field_joins_its_hits_witness :
  NoDup (List.map fst catalog_kb)
  /\ ~ In REMARK (List.map fst catalog_kb)
  /\ In (STANDARD, [a312]) catalog_kb
  /\ STANDARD <> NAME
  /\ List.filter
       (fun t => negb (skipped Ascii_runtime.float_ok t)
                 && hit Ascii_runtime.lower Ascii_runtime.token_sort_ratio t
                      (STANDARD, [a312]))
       (tokens order_line)
     = [lit "ASTM A312"; lit "A312 TP316"]
  /\ exists row,
       decompose_ascii catalog_kb order_line = Some row
       /\ dict_get row STANDARD
          = Some (join_tokens
                    (List.filter
                       (fun t => negb (skipped Ascii_runtime.float_ok t)
                                 && hit Ascii_runtime.lower
                                      Ascii_runtime.token_sort_ratio t
                                      (STANDARD, [a312]))
                       (tokens order_line))).
Proof.
  destruct catalog_kb_keys as (H1 & _ & H3).
  assert (In (STANDARD, [a312]) catalog_kb) as H4 by (right; by left).
  assert (STANDARD <> NAME) as H5 by discriminate.
  split; [exact H1|]. split; [exact H3|]. split; [exact H4|].
  split; [exact H5|]. split; [by vm_compute|].
  exact (column_field_joins_its_hits Ascii_runtime.lower
           Ascii_runtime.float_ok Ascii_runtime.token_sort_ratio
           catalog_kb order_line STANDARD [a312] H1 H3 H4 H5).
Defined.

Lemma remainder_joins_the_unmatched_witness :
  ~ In REMARK (List.map fst catalog_kb)
  /\ List.filter
       (fun t => negb (skipped Ascii_runtime.float_ok t
                       || matched Ascii_runtime.lower
                            Ascii_runtime.token_sort_ratio catalog_kb t))
       (tokens order_line)
     = [lit "flange"]
  /\ exists row,
       decompose_ascii catalog_kb order_line = Some row
       /\ dict_get row REMARK
          = Some (join_tokens
                    (List.filter
                       (fun t => negb (skipped Ascii_runtime.float_ok t
                                       || matched Ascii_runtime.lower
                                            Ascii_runtime.token_sort_ratio
                                            catalog_kb t))
                       (tokens order_line))).
Proof.
  destruct catalog_kb_keys as (_ & _ & H3).
  split; [exact H3|]. split; [by vm_compute|].
  exact (remainder_joins_the_unmatched Ascii_runtime.lower
           Ascii_runtime.float_ok Ascii_runtime.token_sort_ratio
           catalog_kb order_line H3).
Defined.

End Record_facts.

(* ===================================================================== *)
(** * Tokens, description cells and the names of extract1 *)
(* ===================================================================== *)

Module Cell_facts.
Import Frame Harvest Split Split_file Extract1 Strip_facts Locator_facts
  Header_facts.

Lemma newlines_to_spaces_space (c : N) :
  is_space (if (c =? 10)%N then 32%N else c) = is_space c.
Proof. destruct (N.eqb_spec c 10) as [->|]; done. Qed.

(** The tokens of a description have no white space around them and no
    line break inside, and there is one more of them than of the separator
    that occurs most. *)
Theorem tokens_are_trimmed (value : str) :
  Forall (fun token => strip token = token /\ ~ In 10%N token) (tokens value)
  /\ length (tokens value)
     = S (Nat.max (occurrences comma value) (occurrences semicolon value)).
Proof.
  split.
  - unfold tokens. apply List.Forall_map, List.Forall_forall. intros item _.
    split.
    + unfold newlines_to_spaces.
      rewrite strip_map by apply newlines_to_spaces_space.
      by rewrite strip_idem.
    + unfold newlines_to_spaces. intros (c & Hc & _)%in_map_iff.
      destruct (N.eqb_spec c 10); [discriminate Hc|done].
  - unfold tokens, choose_split. rewrite length_map, !py_split_length.
    destruct (Nat.ltb_spec (S (occurrences semicolon value))
                (S (occurrences comma value)));
      rewrite py_split_length; lia.
Qed.

Lemma column_dropna_in (df : table) (j : nat) (c : cell) :
  In c (dropna (column df j)) ->
  isna c = false /\ exists r, In r df /\ In c r.
Proof.
  unfold dropna, column. rewrite filter_In, in_map_iff.
  intros [(r & <- & Hr) Hna]. apply negb_true_iff in Hna. split; [done|].
  exists r. split; [done|].
  destruct (Nat.lt_ge_cases j (length r)) as [Hlt|Hge].
  - by apply nth_In.
  - rewrite nth_overflow in Hna by done. discriminate Hna.
Qed.

Section Collected.
Variable white_list_keywords : list str.
Variable lower : str -> str.

(** In the decomposing script a file gets an entry exactly when its first
    sheet has two rows or more and a column; every cell collected is a
    non-missing cell of a row below the header row. *)
Theorem collected_cells_lie_below_the_header (df : table) :
  (Split_file.process_excel_file white_list_keywords lower (Sheet df) = None
   <-> length df <= 1 \/ width df = 0)
  /\ forall cells,
       Split_file.process_excel_file white_list_keywords lower (Sheet df)
         = Some cells ->
       Forall (fun c => isna c = false
                        /\ exists r, In r (skipn (find_header_row df + 1) df)
                                     /\ In c r) cells.
Proof.
  unfold Split_file.process_excel_file, empty.
  assert (find_header_row df = 0 \/ find_header_row df < Nat.min 10 (length df) - 1)
    as Hb by apply first_index_bound.
  split.
  - destruct (Nat.eqb_spec (length df) 0) as [H0|H0]; simpl; [split; [lia|done]|].
    destruct (Nat.eqb_spec (width df) 0) as [Hw|Hw]; simpl; [split; [lia|done]|].
    destruct (Nat.leb_spec (length df) (find_header_row df + 1)); split;
      try done; lia.
  - intros cells.
    destruct ((length df =? 0) || (width df =? 0)); [done|].
    destruct (length df <=? find_header_row df + 1); [done|].
    intros [= <-]. apply List.Forall_forall. intros c Hc.
    apply in_flat_map in Hc as ([idx name] & _ & Hc).
    unfold collect_column in Hc.
    destruct (width _ <=? idx); [done|].
    destruct (negb _); [done|].
    by apply column_dropna_in in Hc.
Qed.

End Collected.


End Cell_facts.

(* ===================================================================== *)
(** * Accumulation across runs *)
(* ===================================================================== *)

Module Accumulation_facts.
Import Harvest Knowledge_order Harvest_run Harvest_facts Harvest_steps
  Snapshot_facts Run_facts Inputs Run_inputs.

(** When the folder has an Excel file, every value of the snapshot read at
    the start is in the snapshot written at the end, under its column:
    a run loses nothing that an earlier run had found. *)
Theorem snapshot_values_are_kept
    (keywords white_list_keywords : list str) (lower : str -> str)
    (float_ok int_ok : str -> bool)
    (data : gmap str (list str)) (excel_files : list excel_file)
    (k : str) (l0 : list str) (v : str) :
  excel_files <> [] -> data !! k = Some l0 -> v ∈ l0 ->
  exists l,
    process_folder keywords white_list_keywords lower float_ok int_ok
      (Some data) excel_files !! k = Some l
    /\ v ∈ l.
Proof.
  intros Hfiles Hk Hv. unfold process_folder.
  destruct excel_files as [|file files]; [done|].
  destruct (harvest_files_settling keywords white_list_keywords lower
              float_ok int_ok (file :: files)) as [Hgrow _].
  specialize (Hgrow (load_snapshot (Some data)) k).
  assert (v ∈ stored (load_snapshot (Some data)) k) as Hin.
  { unfold stored, load_snapshot. rewrite lookup_fmap, Hk. simpl.
    by apply elem_of_list_to_set. }
  apply Hgrow in Hin. rewrite finalize_lookup.
  destruct (decide (stored _ k = ∅)) as [He|Hne].
  - rewrite He in Hin. by apply not_elem_of_empty in Hin.
  - eexists. split; [done|]. by apply elem_of_sorted.
Qed.

Lemma snapshot_values_are_kept_witness :
  folder <> []
  /\ first_snapshot !! STANDARD = Some [a312]
  /\ a312 ∈ [a312]
  /\ exists l, run_main (Some first_snapshot) folder !! STANDARD = Some l
               /\ a312 ∈ l.
Proof.
  assert (folder <> []) as H1 by discriminate.
  assert (first_snapshot !! STANDARD = Some [a312]) as H2 by (by vm_compute).
  assert (a312 ∈ [a312]) as H3 by apply list_elem_of_here.
  split; [exact H1|]. split; [exact H2|]. split; [exact H3|].
  exact (snapshot_values_are_kept skip_keywords white_list Ascii_runtime.lower
           Ascii_runtime.float_ok Ascii_runtime.int_ok
           first_snapshot folder STANDARD [a312] a312 H1 H2 H3).
Defined.

End Accumulation_facts.
